(** * D&D Beyond sign-in automation: a shallow embedding of
      [scripts/simple_dndbeyond_auth.py]

    The script drives a browser through Selenium.  Every call that leaves the
    Python process (urllib, the driver manager, the WebDriver, the console
    prompt, [time.sleep]) is answered by an environment [Env W] over a hidden
    world state [W]; the embedding is a state-and-exception monad over the
    Python object [self], the world, and a chronological log of the calls and
    console lines the script issued. *)

From Stdlib Require Import String Ascii List ZArith Bool Lia.
From ExtLib Require Import Structures.Monad Structures.MonadExc.
Import ListNotations.
Import MonadNotation.
Local Open Scope string_scope.
Local Open Scope list_scope.
Local Open Scope Z_scope.
Local Open Scope monad_scope.

Set Implicit Arguments.

(** ** Python values the script handles *)

(** The exception classes the script names or can meet, with their bases.
    The [except] clauses of the script test six classes only
    ([KeyboardInterrupt], [Exception], [URLError], [WebDriverException],
    [TimeoutException], [NoSuchElementException]); any other class behaves
    under them like one listed here. *)
Inductive exn_class :=
| BaseException | KeyboardInterrupt | SystemExit
| Exception | EOFError | AttributeError
| OSError | URLError | HTTPError | TimeoutError | ConnectionRefusedError
| WebDriverException | TimeoutException | NoSuchElementException
| StaleElementReferenceException | ElementClickInterceptedException
| ValueError | UnicodeError | UnicodeEncodeError.

Definition exn_class_eqb (a b : exn_class) : bool :=
  match a, b with
  | BaseException, BaseException | KeyboardInterrupt, KeyboardInterrupt
  | SystemExit, SystemExit | Exception, Exception | EOFError, EOFError
  | AttributeError, AttributeError | OSError, OSError | URLError, URLError
  | HTTPError, HTTPError | TimeoutError, TimeoutError
  | ConnectionRefusedError, ConnectionRefusedError
  | WebDriverException, WebDriverException
  | TimeoutException, TimeoutException
  | NoSuchElementException, NoSuchElementException
  | StaleElementReferenceException, StaleElementReferenceException
  | ElementClickInterceptedException, ElementClickInterceptedException
  | ValueError, ValueError | UnicodeError, UnicodeError
  | UnicodeEncodeError, UnicodeEncodeError => true
  | _, _ => false
  end.

(** Method resolution order: the class followed by its bases. *)
Definition mro (c : exn_class) : list exn_class :=
  match c with
  | BaseException => [BaseException]
  | KeyboardInterrupt => [KeyboardInterrupt; BaseException]
  | SystemExit => [SystemExit; BaseException]
  | Exception => [Exception; BaseException]
  | EOFError => [EOFError; Exception; BaseException]
  | AttributeError => [AttributeError; Exception; BaseException]
  | OSError => [OSError; Exception; BaseException]
  | URLError => [URLError; OSError; Exception; BaseException]
  | HTTPError => [HTTPError; URLError; OSError; Exception; BaseException]
  | TimeoutError => [TimeoutError; OSError; Exception; BaseException]
  | ConnectionRefusedError =>
      [ConnectionRefusedError; OSError; Exception; BaseException]
  | WebDriverException => [WebDriverException; Exception; BaseException]
  | TimeoutException =>
      [TimeoutException; WebDriverException; Exception; BaseException]
  | NoSuchElementException =>
      [NoSuchElementException; WebDriverException; Exception; BaseException]
  | StaleElementReferenceException =>
      [StaleElementReferenceException; WebDriverException; Exception;
       BaseException]
  | ElementClickInterceptedException =>
      [ElementClickInterceptedException; WebDriverException; Exception;
       BaseException]
  | ValueError => [ValueError; Exception; BaseException]
  | UnicodeError => [UnicodeError; ValueError; Exception; BaseException]
  | UnicodeEncodeError =>
      [UnicodeEncodeError; UnicodeError; ValueError; Exception; BaseException]
  end.

Record exn := mkExn { cls : exn_class; str : string }.

(** [isinstance e c]: the test an [except c] clause performs. *)
Definition isinstance (e : exn) (c : exn_class) : bool :=
  existsb (exn_class_eqb c) (mro (cls e)).

(** What a call gives back: a value, or a raised exception. *)
Inductive outcome (A : Type) :=
| Ret (a : A)
| Raise (e : exn).
Arguments Ret {A} a.
Arguments Raise {A} e.

Definition handle := nat.   (* a [webdriver.Edge] instance *)
Definition element := nat.  (* a [WebElement] *)

Inductive By := ID | CLASS_NAME | XPATH | CSS_SELECTOR.

Record response := mkResponse { getcode : Z }.

(** [selenium.webdriver.edge.options.Options] as the script fills it. *)
Inductive option_value := OBool (b : bool) | OList (l : list string).

Record Options := mkOptions {
  arguments : list string;
  experimental_options : list (string * option_value)
}.

Definition new_Options : Options := mkOptions [] [].
Definition add_argument (o : Options) (a : string) : Options :=
  mkOptions (arguments o ++ [a]) (experimental_options o).
Definition add_experimental_option (o : Options) (k : string)
    (v : option_value) : Options :=
  mkOptions (arguments o) (experimental_options o ++ [(k, v)]).

(** [sub in s] on Python strings. *)
Fixpoint contains (sub s : string) : bool :=
  prefix sub s ||
  match s with
  | EmptyString => false
  | String _ t => contains sub t
  end.

(** The newline character of ["\n"]. *)
Definition nl : string := String (ascii_of_nat 10) "".

(** [s * n] on Python strings. *)
Fixpoint str_mul (s : string) (n : nat) : string :=
  match n with
  | O => ""
  | S k => s ++ str_mul s k
  end.

(** ** The log: every external call and console line, oldest first *)

Inductive event :=
| EPrint (line : string)
| EInput (prompt : string)
| ESleep (seconds : Z)
| EUrlopen (url : string) (timeout : Z)
| EInstall
| EEdge (service : string) (options : Options)
| EExecuteScript (d : handle) (script : string)
| EImplicitlyWait (d : handle) (seconds : Z)
| ESetPageLoadTimeout (d : handle) (seconds : Z)
| EGet (d : handle) (url : string)
| ESaveScreenshot (d : handle) (file : string)
| EWaitClickable (d : handle) (by_ : By) (value : string) (timeout : Z)
| EFindElement (d : handle) (by_ : By) (value : string)
| ECurrentUrl (d : handle)
| EClick (el : element)
| EClear (el : element)
| ESendKeys (el : element) (keys : string)
| EQuit (d : handle).

Definition is_quit (ev : event) : bool :=
  match ev with EQuit _ => true | _ => false end.

(** Events of [setup_driver]: fetching the driver binary, starting Edge. *)
Definition is_bootstrap (ev : event) : bool :=
  match ev with EInstall | EEdge _ _ => true | _ => false end.

Definition is_find_element (ev : event) : bool :=
  match ev with EFindElement _ _ _ => true | _ => false end.

Definition count (p : event -> bool) (l : list event) : nat :=
  List.length (filter p l).

(** ** The environment *)

(** One field per external call of the script.  Each takes the hidden world
    state and answers with an outcome and the next world state. *)
Record Env (W : Type) := mkEnv {
  env_urlopen : string -> Z -> W -> outcome response * W;
  env_sleep : Z -> W -> outcome unit * W;
  env_input : string -> W -> outcome string * W;
  env_install : W -> outcome string * W;
  env_Edge : string -> Options -> W -> outcome handle * W;
  env_execute_script : handle -> string -> W -> outcome unit * W;
  env_implicitly_wait : handle -> Z -> W -> outcome unit * W;
  env_set_page_load_timeout : handle -> Z -> W -> outcome unit * W;
  env_get : handle -> string -> W -> outcome unit * W;
  env_save_screenshot : handle -> string -> W -> outcome bool * W;
  (* WebDriverWait(driver, timeout).until(EC.element_to_be_clickable(...)) *)
  env_wait_clickable : handle -> By -> string -> Z -> W -> outcome element * W;
  env_find_element : handle -> By -> string -> W -> outcome element * W;
  env_current_url : handle -> W -> outcome string * W;
  env_click : element -> W -> outcome unit * W;
  env_clear : element -> W -> outcome unit * W;
  env_send_keys : element -> string -> W -> outcome unit * W;
  env_quit : handle -> W -> outcome unit * W
}.

(** ** The object and the machine state *)

Record auth := mkAuth {
  username : string;
  password : string;
  login_url : string;
  driver : option handle;
  headless : bool
}.

Record state (W : Type) := mkState {
  self : auth;
  world : W;
  log : list event
}.

(** [__init__].  The two credential literals of the source are taken as
    arguments: no statement below depends on their value. *)
Definition init (user pass : string) (headless : bool) : auth :=
  {| username := user;
     password := pass;
     login_url :=
       "https://www.dndbeyond.com/sign-in?returnUrl=https://www.dndbeyond.com/sources";
     driver := None;
     headless := headless |}.

Definition set_driver (a : auth) (d : handle) : auth :=
  {| username := username a; password := password a;
     login_url := login_url a; driver := Some d; headless := headless a |}.

(** ** The monad *)

Definition M (W A : Type) : Type := state W -> outcome A * state W.

#[global] Instance Monad_M {W} : Monad (M W) :=
  {| ret := fun _ a s => (Ret a, s);
     bind := fun _ _ m k s =>
       match m s with
       | (Ret a, s') => k a s'
       | (Raise e, s') => (Raise e, s')
       end |}.

#[global] Instance Exc_M {W} : MonadExc exn (M W) :=
  {| raise := fun _ e s => (Raise e, s);
     catch := fun _ m h s =>
       match m s with
       | (Ret a, s') => (Ret a, s')
       | (Raise e, s') => h e s'
       end |}.

(** [try: body / except c1 as e: h1 / except c2 as e: h2 ...]: the first
    clause whose class the exception is an instance of handles it; with no
    such clause it propagates. *)
Fixpoint dispatch {W A} (hs : list (exn_class * (exn -> M W A))) (e : exn)
    : M W A :=
  match hs with
  | [] => raise e
  | (c, h) :: rest => if isinstance e c then h e else dispatch rest e
  end.

Definition try_except {W A} (body : M W A)
    (hs : list (exn_class * (exn -> M W A))) : M W A :=
  catch body (dispatch hs).

(** [try: body / finally: fin]: [fin] runs on every exit of [body]; an
    exception of [fin] replaces the outcome of [body]. *)
Definition try_finally {W A} (body : M W A) (fin : M W unit) : M W A :=
  fun s =>
    match body s with
    | (o, s') =>
        match fin s' with
        | (Ret _, s'') => (o, s'')
        | (Raise e, s'') => (Raise e, s'')
        end
    end.

Section Script.

Context {W : Type} (env : Env W).

(** The credential literals of [__init__]. *)
Variables (the_username the_password : string).

#[local] Abbreviation M := (M W).
#[local] Abbreviation state := (state W).

Definition emit (ev : event) (s : state) : state :=
  {| self := self s; world := world s; log := log s ++ [ev] |}.

(** An external call: logged, then answered by the environment. *)
Definition call {A} (ev : event) (f : W -> outcome A * W) : M A :=
  fun s =>
    let (o, w) := f (world s) in
    (o, {| self := self s; world := w; log := log s ++ [ev] |}).

(** [print] on a console that takes every line (a UTF-8 terminal): the
    line is logged and nothing is raised.  The console that can refuse a
    line is [print_on], further down. *)
Definition print (line : string) : M unit :=
  fun s => (Ret tt, emit (EPrint line) s).

Definition get_self : M auth := fun s => (Ret (self s), s).

Definition assign_driver (d : handle) : M unit :=
  fun s => (Ret tt, {| self := set_driver (self s) d;
                       world := world s; log := log s |}).

(** [self.driver.<attr>]: an attribute access on [None] raises.  For
    [WebDriverWait(self.driver, ...).until(...)] the access is the
    [find_element] the expected condition performs. *)
Definition the_driver (attr : string) : M handle :=
  a <- get_self ;;
  match driver a with
  | Some d => ret d
  | None =>
      raise (mkExn AttributeError
               ("'NoneType' object has no attribute '" ++ attr ++ "'"))
  end.

Definition sleep (seconds : Z) : M unit :=
  call (ESleep seconds) (env_sleep env seconds).

(** *** [check_internet_connection], [check_dndbeyond_accessibility] *)

(** The [with] block only closes the response on exit; the [return False]
    after it is the [else] branch here. *)

Definition check_internet_connection : M bool :=
  try_except
    (print "Checking internet connectivity..." ;;
     response <- call (EUrlopen "https://www.google.com" 10)
                      (env_urlopen env "https://www.google.com" 10) ;;
     if getcode response =? 200 then
       print "✓ Internet connection working" ;;
       ret true
     else
       ret false)
    [(URLError, fun e =>
        print ("✗ Internet connection failed: " ++ str e) ;; ret false);
     (Exception, fun e =>
        print ("✗ Network check failed: " ++ str e) ;; ret false)].

Definition check_dndbeyond_accessibility : M bool :=
  try_except
    (print "Checking D&D Beyond accessibility..." ;;
     response <- call (EUrlopen "https://www.dndbeyond.com" 15)
                      (env_urlopen env "https://www.dndbeyond.com" 15) ;;
     if getcode response =? 200 then
       print "✓ D&D Beyond is accessible" ;;
       ret true
     else
       ret false)
    [(URLError, fun e =>
        print ("✗ Cannot reach D&D Beyond: " ++ str e) ;; ret false);
     (Exception, fun e =>
        print ("✗ D&D Beyond check failed: " ++ str e) ;; ret false)].

(** *** [setup_driver] *)

(** The [Options] object built at the head of [setup_driver]. *)
Definition edge_options (headless : bool) : Options :=
  let edge_options := new_Options in
  let edge_options :=
    if headless then add_argument edge_options "--headless"
    else edge_options in
  let edge_options := add_argument edge_options "--no-sandbox" in
  let edge_options := add_argument edge_options "--disable-dev-shm-usage" in
  let edge_options :=
    add_argument edge_options "--disable-blink-features=AutomationControlled" in
  let edge_options := add_argument edge_options "--disable-web-security" in
  let edge_options :=
    add_argument edge_options "--allow-running-insecure-content" in
  let edge_options := add_argument edge_options "--disable-extensions" in
  let edge_options :=
    add_experimental_option edge_options "excludeSwitches"
      (OList ["enable-automation"]) in
  add_experimental_option edge_options "useAutomationExtension" (OBool false).

Definition webdriver_override : string :=
  "Object.defineProperty(navigator, 'webdriver', {get: () => undefined})".

Definition setup_driver : M bool :=
  try_except
    (print "Setting up Edge WebDriver..." ;;
     a <- get_self ;;
     let edge_options := edge_options (headless a) in
     print "Downloading/updating Edge WebDriver..." ;;
     service <- call EInstall (env_install env) ;;
     print "Starting Edge browser..." ;;
     d <- call (EEdge service edge_options) (env_Edge env service edge_options) ;;
     assign_driver d ;;
     d <- the_driver "execute_script" ;;
     call (EExecuteScript d webdriver_override)
          (env_execute_script env d webdriver_override) ;;
     d <- the_driver "implicitly_wait" ;;
     call (EImplicitlyWait d 10) (env_implicitly_wait env d 10) ;;
     d <- the_driver "set_page_load_timeout" ;;
     call (ESetPageLoadTimeout d 30) (env_set_page_load_timeout env d 30) ;;
     print "✓ Edge WebDriver setup complete" ;;
     ret true)
    [(WebDriverException, fun e =>
        print ("✗ WebDriver error: " ++ str e) ;; ret false);
     (Exception, fun e =>
        print ("✗ Error setting up driver: " ++ str e) ;; ret false)].

(** *** [wait_for_element] *)

Definition wait_for_element (by_ : By) (value : string) (timeout : Z)
    : M (option element) :=
  try_except
    (d <- the_driver "find_element" ;;
     element <- call (EWaitClickable d by_ value timeout)
                     (env_wait_clickable env d by_ value timeout) ;;
     ret (Some element))
    [(TimeoutException, fun _ =>
        print ("Timeout waiting for element: " ++ value) ;; ret None)].

(** *** [click_sign_in_with_wizards] *)

Definition possible_selectors : list string :=
  ["//button[contains(text(), 'Sign in with Wizards')]";
   "//a[contains(text(), 'Sign in with Wizards')]";
   "//button[contains(@class, 'wizards')]";
   "//a[contains(@class, 'wizards')]";
   "//button[contains(text(), 'Wizards')]";
   "//a[contains(text(), 'Wizards')]"].

(** The [for selector in possible_selectors] loop.  [Some b]: the function
    returned [b] from inside the loop; [None]: the loop ran to its end. *)
Fixpoint click_sign_in_with_wizards_loop (selectors : list string)
    : M (option bool) :=
  match selectors with
  | [] => ret None
  | selector :: rest =>
      r <- try_except
             (element <- wait_for_element XPATH selector 5 ;;
              match element with
              | Some el =>
                  print "Found 'Sign in with Wizards' button" ;;
                  call (EClick el) (env_click env el) ;;
                  ret (Some true)
              | None => ret None
              end)
             [(Exception, fun _ => ret None)] ;;
      match r with
      | Some b => ret (Some b)
      | None => click_sign_in_with_wizards_loop rest
      end
  end.

Definition click_sign_in_with_wizards : M bool :=
  try_except
    (r <- click_sign_in_with_wizards_loop possible_selectors ;;
     match r with
     | Some b => ret b
     | None =>
         print "Could not find 'Sign in with Wizards' button" ;;
         ret false
     end)
    [(Exception, fun e =>
        print ("Error clicking Sign in with Wizards: " ++ str e) ;;
        ret false)].

(** *** [enter_credentials] *)

Definition username_selectors : list string :=
  ["input[name='username']";
   "input[name='email']";
   "input[type='email']";
   "input[id*='username']";
   "input[id*='email']"].

Definition password_selectors : list string :=
  ["input[name='password']";
   "input[type='password']";
   "input[id*='password']"].

(** The two [for selector in ..._selectors] loops of [enter_credentials]
    (they differ in the list and the variable's name only): the variable
    [field] is assigned each result, and the first truthy one breaks. *)
Fixpoint field_loop (selectors : list string) (field : option element)
    : M (option element) :=
  match selectors with
  | [] => ret field
  | selector :: rest =>
      field <- wait_for_element CSS_SELECTOR selector 5 ;;
      match field with
      | Some _ => ret field
      | None => field_loop rest field
      end
  end.

Definition enter_credentials : M bool :=
  try_except
    (username_field <- field_loop username_selectors None ;;
     match username_field with
     | None => print "Could not find username field" ;; ret false
     | Some username_field =>
         call (EClear username_field) (env_clear env username_field) ;;
         a <- get_self ;;
         call (ESendKeys username_field (username a))
              (env_send_keys env username_field (username a)) ;;
         print "Entered username" ;;
         password_field <- field_loop password_selectors None ;;
         match password_field with
         | None => print "Could not find password field" ;; ret false
         | Some password_field =>
             call (EClear password_field) (env_clear env password_field) ;;
             a <- get_self ;;
             call (ESendKeys password_field (password a))
                  (env_send_keys env password_field (password a)) ;;
             print "Entered password" ;;
             ret true
         end
     end)
    [(Exception, fun e =>
        print ("Error entering credentials: " ++ str e) ;; ret false)].

(** *** [submit_login] *)

Definition submit_selectors : list string :=
  ["button[type='submit']";
   "input[type='submit']";
   "//button[contains(text(), 'Sign In')]";
   "//button[contains(text(), 'Login')]";
   "//button[contains(text(), 'Log In')]";
   "//input[contains(@value, 'Sign In')]"].

Fixpoint submit_login_loop (selectors : list string) : M (option bool) :=
  match selectors with
  | [] => ret None
  | selector :: rest =>
      r <- try_except
             (submit_btn <-
                (if prefix "//" selector
                 then wait_for_element XPATH selector 5
                 else wait_for_element CSS_SELECTOR selector 5) ;;
              match submit_btn with
              | Some btn =>
                  print "Found submit button, clicking..." ;;
                  call (EClick btn) (env_click env btn) ;;
                  ret (Some true)
              | None => ret None
              end)
             [(Exception, fun _ => ret None)] ;;
      match r with
      | Some b => ret (Some b)
      | None => submit_login_loop rest
      end
  end.

Definition submit_login : M bool :=
  try_except
    (r <- submit_login_loop submit_selectors ;;
     match r with
     | Some b => ret b
     | None => print "Could not find submit button" ;; ret false
     end)
    [(Exception, fun e =>
        print ("Error submitting login: " ++ str e) ;; ret false)].

(** *** [check_login_success] *)

Definition success_indicators : list string :=
  ["sources"; "dashboard"; "my-characters"].

Definition user_elements : list string :=
  ["//a[contains(@class, 'user')]";
   "//button[contains(@class, 'user')]";
   "//div[contains(@class, 'user-menu')]";
   "//span[contains(@class, 'username')]"].

Fixpoint success_indicators_loop (indicators : list string)
    (current_url : string) : M (option bool) :=
  match indicators with
  | [] => ret None
  | indicator :: rest =>
      if contains indicator current_url then
        print ("Login successful! Redirected to: " ++ current_url) ;;
        ret (Some true)
      else success_indicators_loop rest current_url
  end.

(** A [WebElement] is truthy, so [if element:] always takes its branch once
    [find_element] has returned. *)
Fixpoint user_elements_loop (selectors : list string) : M (option bool) :=
  match selectors with
  | [] => ret None
  | selector :: rest =>
      r <- try_except
             (d <- the_driver "find_element" ;;
              _ <- call (EFindElement d XPATH selector)
                        (env_find_element env d XPATH selector) ;;
              print "Found user element, login appears successful" ;;
              ret (Some true))
             [(NoSuchElementException, fun _ => ret None)] ;;
      match r with
      | Some b => ret (Some b)
      | None => user_elements_loop rest
      end
  end.

Definition check_login_success : M bool :=
  try_except
    (sleep 3 ;;
     d <- the_driver "current_url" ;;
     current_url <- call (ECurrentUrl d) (env_current_url env d) ;;
     print ("Current URL: " ++ current_url) ;;
     r <- success_indicators_loop success_indicators current_url ;;
     match r with
     | Some b => ret b
     | None =>
         r <- user_elements_loop user_elements ;;
         match r with
         | Some b => ret b
         | None =>
             if contains "sign-in" current_url || contains "login" current_url
             then
               print "Still on login page, login may have failed" ;;
               ret false
             else
               print "Login status unclear" ;;
               ret false
         end
     end)
    [(Exception, fun e =>
        print ("Error checking login success: " ++ str e) ;; ret false)].

(** *** [authenticate] *)

Definition authenticate : M bool :=
  try_except
    (print "Starting D&D Beyond authentication..." ;;
     print (str_mul "=" 50) ;;
     ok <- check_internet_connection ;;
     if negb ok then
       print "❌ No internet connection available" ;; ret false
     else
     ok <- check_dndbeyond_accessibility ;;
     if negb ok then
       print "❌ D&D Beyond is not accessible" ;; ret false
     else
     ok <- setup_driver ;;
     if negb ok then
       print "❌ Failed to setup WebDriver" ;; ret false
     else
     a <- get_self ;;
     print (nl ++ "Navigating to: " ++ login_url a) ;;
     r <- try_except
            (d <- the_driver "get" ;;
             call (EGet d (login_url a)) (env_get env d (login_url a)) ;;
             print "✓ Successfully loaded login page" ;;
             ret None)
            [(WebDriverException, fun e =>
                print ("✗ Failed to load login page: " ++ str e) ;;
                ret (Some false))] ;;
     match r with
     | Some b => ret b
     | None =>
     sleep 3 ;;
     try_except
       (d <- the_driver "save_screenshot" ;;
        _ <- call (ESaveScreenshot d "login_page.png")
                  (env_save_screenshot env d "login_page.png") ;;
        print "✓ Saved screenshot of login page")
       [(Exception, fun e =>
           print ("⚠ Could not save screenshot: " ++ str e))] ;;
     ok <- click_sign_in_with_wizards ;;
     (if negb ok then
        print "⚠ Failed to click 'Sign in with Wizards' button" ;;
        print "Attempting to continue anyway..."
      else ret tt) ;;
     sleep 2 ;;
     ok <- enter_credentials ;;
     if negb ok then
       print "❌ Failed to enter credentials" ;; ret false
     else
     ok <- submit_login ;;
     if negb ok then
       print "❌ Failed to submit login form" ;; ret false
     else
     ok <- check_login_success ;;
     if ok then
       print "✅ Authentication successful!" ;; ret true
     else
       print "❌ Authentication failed!" ;; ret false
     end)
    [(WebDriverException, fun e =>
        print ("❌ WebDriver error during authentication: " ++ str e) ;;
        ret false);
     (Exception, fun e =>
        print ("❌ Error during authentication: " ++ str e) ;; ret false)].

(** *** [close], [get_driver], [main] *)

Definition close : M unit :=
  a <- get_self ;;
  match driver a with
  | Some d => call (EQuit d) (env_quit env d)
  | None => ret tt
  end.

Definition get_driver : M (option handle) :=
  a <- get_self ;; ret (driver a).

(** [auth = SimpleDNDBeyondAuth(headless=...)]. *)
Definition construct (headless : bool) : M unit :=
  fun s => (Ret tt, {| self := init the_username the_password headless;
                       world := world s; log := log s |}).

Definition main : M unit :=
  construct false ;;
  try_finally
    (try_except
       (success <- authenticate ;;
        if (success : bool) then
          print (nl ++ "✅ Authentication successful!") ;;
          print "You can now continue with your automation tasks..." ;;
          _ <- call (EInput "Press Enter to close the browser...")
                    (env_input env "Press Enter to close the browser...") ;;
          ret tt
        else
          print (nl ++ "❌ Authentication failed!"))
       [(KeyboardInterrupt, fun _ =>
           print (nl ++ "Authentication interrupted by user"));
        (Exception, fun e =>
           print (nl ++ "Unexpected error: " ++ str e))])
    close.

End Script.

Arguments emit {W} ev s /.

(** ** The console *)

(** [print] above never fails.  A real [sys.stdout] can refuse a line: a
    [UnicodeEncodeError] for a character its encoding lacks, an [OSError]
    on a closed pipe.  Where a statement is about the exceptions that leave
    a method, the method is embedded over a console that answers like every
    other call, with an outcome and the next world. *)
Record Console (W : Type) := mkConsole {
  console_write : string -> W -> outcome unit * W
}.

Definition print_on {W} (c : Console W) (line : string) : M W unit :=
  call (EPrint line) (console_write c line).

(** The console [print] assumes. *)
Definition plain_console {W} : Console W :=
  {| console_write := fun _ w => (Ret tt, w) |}.

(** The console takes every line, in every world. *)
Definition accepts_all {W} (c : Console W) : Prop :=
  forall line w, fst (console_write c line w) = Ret tt.

(** [check_internet_connection] and [check_dndbeyond_accessibility], line
    for line, over a console [c]. *)
Definition check_internet_connection_on {W} (env : Env W) (c : Console W)
    : M W bool :=
  try_except
    (print_on c "Checking internet connectivity..." ;;
     response <- call (EUrlopen "https://www.google.com" 10)
                      (env_urlopen env "https://www.google.com" 10) ;;
     if getcode response =? 200 then
       print_on c "✓ Internet connection working" ;;
       ret true
     else
       ret false)
    [(URLError, fun e =>
        print_on c ("✗ Internet connection failed: " ++ str e) ;; ret false);
     (Exception, fun e =>
        print_on c ("✗ Network check failed: " ++ str e) ;; ret false)].

Definition check_dndbeyond_accessibility_on {W} (env : Env W) (c : Console W)
    : M W bool :=
  try_except
    (print_on c "Checking D&D Beyond accessibility..." ;;
     response <- call (EUrlopen "https://www.dndbeyond.com" 15)
                      (env_urlopen env "https://www.dndbeyond.com" 15) ;;
     if getcode response =? 200 then
       print_on c "✓ D&D Beyond is accessible" ;;
       ret true
     else
       ret false)
    [(URLError, fun e =>
        print_on c ("✗ Cannot reach D&D Beyond: " ++ str e) ;; ret false);
     (Exception, fun e =>
        print_on c ("✗ D&D Beyond check failed: " ++ str e) ;; ret false)].

(** ** Vocabulary of the statements *)

(** A network condition as [urlopen] reports it: a response, or an
    exception of a class below [Exception] ([URLError] for a DNS failure or
    a refused connection, [TimeoutError] for a timeout, [HTTPError]...). *)
Definition network_outcome (o : outcome response) : bool :=
  match o with
  | Ret _ => true
  | Raise e => isinstance e Exception
  end.

(** The candidates of [locs], polled in order from world [w], each end in a
    [TimeoutException]; the result is the world after the last poll. *)
Fixpoint all_time_out {W} (env : Env W) (d : handle) (locs : list (By * string))
    (timeout : Z) (w : W) : option W :=
  match locs with
  | [] => Some w
  | (by_, value) :: rest =>
      match env_wait_clickable env d by_ value timeout w with
      | (Raise e, w') =>
          if isinstance e TimeoutException
          then all_time_out env d rest timeout w'
          else None
      | (Ret _, _) => None
      end
  end.

(** What such a round of polls leaves in the log. *)
Definition timed_out_events (d : handle) (locs : list (By * string))
    (timeout : Z) : list event :=
  flat_map (fun l => [EWaitClickable d (fst l) (snd l) timeout;
                      EPrint ("Timeout waiting for element: " ++ snd l)])
           locs.

(** The strategy [submit_login] picks for a selector. *)
Definition submit_locator (selector : string) : By * string :=
  (if prefix "//" selector then XPATH else CSS_SELECTOR, selector).

(** No selector of [selectors], looked up in order from world [w], is in the
    page: each [find_element] ends in a [NoSuchElementException]. *)
Fixpoint none_present {W} (env : Env W) (d : handle) (selectors : list string)
    (w : W) : option W :=
  match selectors with
  | [] => Some w
  | selector :: rest =>
      match env_find_element env d XPATH selector w with
      | (Raise e, w') =>
          if isinstance e NoSuchElementException
          then none_present env d rest w'
          else None
      | (Ret _, _) => None
      end
  end.

Definition has_success_marker (url : string) : bool :=
  existsb (fun indicator => contains indicator url) success_indicators.

(** [m] relates every start state to its end state by [R]. *)
Definition keeps {W A} (R : state W -> state W -> Prop) (m : M W A) : Prop :=
  forall s, R s (snd (m s)).

(** A relation every step of the script respects as long as the events it
    logs satisfy [frame_ok]. *)
Class Frame {W} (R : state W -> state W -> Prop) := {
  frame_ok : event -> bool;
  frame_refl : forall s, R s s;
  frame_trans : forall a b c, R a b -> R b c -> R a c;
  frame_step : forall s w ev, frame_ok ev = true ->
    R s {| self := self s; world := w; log := log s ++ [ev] |}
}.

Definition same_quits {W} (s s' : state W) : Prop :=
  count is_quit (log s') = count is_quit (log s).

(** No bootstrap call was issued and [self.driver] was not assigned. *)
Definition no_bootstrap {W} (s s' : state W) : Prop :=
  count is_bootstrap (log s') = count is_bootstrap (log s) /\
  self s' = self s.

(** The line [setup_driver] prints last, just before it returns [True]. *)
Definition is_bootstrap_done (ev : event) : bool :=
  match ev with
  | EPrint line => String.eqb line "✓ Edge WebDriver setup complete"
  | _ => false
  end.

(** Once [self.driver] holds a session it keeps holding one, and a bootstrap
    reported complete has stored one. *)
Definition session_kept {W} (s s' : state W) : Prop :=
  (driver (self s) <> None -> driver (self s') <> None) /\
  (existsb is_bootstrap_done (log s') = true ->
   existsb is_bootstrap_done (log s) = true \/ driver (self s') <> None).

(** Between [s] and [s'] the stored session was released: [quit] was called
    once, on that session, as the last call. *)
Definition released_once {W} (s s' : state W) : Prop :=
  exists d l,
    driver (self s') = Some d /\
    count is_quit (log s') = S (count is_quit (log s)) /\
    log s' = l ++ [EQuit d].

(** What every step of an attempt respects, [close] apart. *)
Definition attempt_frame {W} (s s' : state W) : Prop :=
  same_quits s s' /\ session_kept s s'.

(** ** Scripted environments, for concrete runs *)

Record scenario := mkScenario {
  sc_google : outcome response;
  sc_dndbeyond : outcome response;
  sc_edge : outcome handle;
  sc_script : outcome unit;
  sc_clickable : list (By * string * element);
  sc_present : list (By * string * element);
  sc_url : string
}.

Definition By_eqb (a b : By) : bool :=
  match a, b with
  | ID, ID | CLASS_NAME, CLASS_NAME | XPATH, XPATH
  | CSS_SELECTOR, CSS_SELECTOR => true
  | _, _ => false
  end.

Fixpoint locate (dom : list (By * string * element)) (by_ : By)
    (value : string) : option element :=
  match dom with
  | [] => None
  | (b, v, el) :: rest =>
      if By_eqb b by_ && String.eqb v value then Some el
      else locate rest by_ value
  end.

(** The page and the network stay as the scenario describes them; calls the
    scenario has no knob for succeed. *)
Definition scripted : Env scenario :=
  {| env_urlopen := fun url _ w =>
       (if String.eqb url "https://www.google.com"
        then sc_google w else sc_dndbeyond w, w);
     env_sleep := fun _ w => (Ret tt, w);
     env_input := fun _ w => (Ret "", w);
     env_install := fun w => (Ret "msedgedriver", w);
     env_Edge := fun _ _ w => (sc_edge w, w);
     env_execute_script := fun _ _ w => (sc_script w, w);
     env_implicitly_wait := fun _ _ w => (Ret tt, w);
     env_set_page_load_timeout := fun _ _ w => (Ret tt, w);
     env_get := fun _ _ w => (Ret tt, w);
     env_save_screenshot := fun _ _ w => (Ret true, w);
     env_wait_clickable := fun _ by_ value _ w =>
       (match locate (sc_clickable w) by_ value with
        | Some el => Ret el
        | None => Raise (mkExn TimeoutException "Message: ")
        end, w);
     env_find_element := fun _ by_ value w =>
       (match locate (sc_present w) by_ value with
        | Some el => Ret el
        | None => Raise (mkExn NoSuchElementException "no such element")
        end, w);
     env_current_url := fun _ w => (Ret (sc_url w), w);
     env_click := fun _ w => (Ret tt, w);
     env_clear := fun _ w => (Ret tt, w);
     env_send_keys := fun _ _ w => (Ret tt, w);
     env_quit := fun _ w => (Ret tt, w) |}.

(** A start state: [self] as [__init__] leaves it, nothing logged. *)
Definition fresh {W} (w : W) : state W :=
  {| self := init "user@example.com" "secret" false; world := w; log := [] |}.

(** The same with a browser session [d] already in [self.driver]. *)
Definition with_session {W} (d : handle) (w : W) : state W :=
  {| self := set_driver (init "user@example.com" "secret" false) d;
     world := w; log := [] |}.

(** The scenarios the concrete runs below use.  Session 7 is the browser
    the driver starts. *)

Definition http_ok : outcome response := Ret (mkResponse 200).

(** The browser never left the sign-in page; the page shows no user
    element.  Its URL is [login_url] itself. *)
Definition stuck_on_sign_in : scenario :=
  mkScenario http_ok http_ok (Ret 7%nat) (Ret tt) [] []
    "https://www.dndbeyond.com/sign-in?returnUrl=https://www.dndbeyond.com/sources".

(** A sign-in page whose URL carries no return address. *)
Definition rejected_login : scenario :=
  mkScenario http_ok http_ok (Ret 7%nat) (Ret tt) [] []
    "https://www.dndbeyond.com/sign-in".

(** Some other page of the site, with no user element. *)
Definition landed_elsewhere : scenario :=
  mkScenario http_ok http_ok (Ret 7%nat) (Ret tt) [] []
    "https://www.dndbeyond.com/".

(** The library page, reached after a login. *)
Definition landed_on_sources : scenario :=
  mkScenario http_ok http_ok (Ret 7%nat) (Ret tt) []
    [(XPATH, "//a[contains(@class, 'user')]", 9%nat)]
    "https://www.dndbeyond.com/sources".

(** Edge starts, but the page rejects the property override. *)
Definition override_rejected : scenario :=
  mkScenario http_ok http_ok (Ret 7%nat)
    (Raise (mkExn WebDriverException "Message: javascript error")) [] [] "".

(** A form with an e-mail field and a submit button, and no password field
    under any of the configured selectors. *)
Definition no_password_field : scenario :=
  mkScenario http_ok http_ok (Ret 7%nat) (Ret tt)
    [(CSS_SELECTOR, "input[name='email']", 1%nat);
     (XPATH, "//button[contains(text(), 'Sign In')]", 3%nat)]
    [] "https://www.dndbeyond.com/sign-in".

(** A page with no 'Sign in with Wizards' control at all. *)
Definition bare_page : scenario :=
  mkScenario http_ok http_ok (Ret 7%nat) (Ret tt) [] []
    "https://www.dndbeyond.com/sign-in".

(** Name resolution fails for every host. *)
Definition dns_down : scenario :=
  mkScenario
    (Raise (mkExn URLError "<urlopen error [Errno -2] Name or service not known>"))
    (Raise (mkExn URLError "<urlopen error [Errno -2] Name or service not known>"))
    (Ret 7%nat) (Ret tt) [] [] "".

(** The reference host answers, the target host is down. *)
Definition target_down : scenario :=
  mkScenario http_ok (Ret (mkResponse 204)) (Ret 7%nat) (Ret tt) [] [] "".

(** ** Further vocabulary *)

(** Scenarios with faults: a call the fault table names raises the given
    exception; every other call behaves as in [scripted]. *)
Record faults := mkFaults {
  f_install : option exn;
  f_wait : list (string * exn);
  f_click : list (element * exn);
  f_find : list (string * exn);
  f_url : option exn;
  f_quit : option exn
}.

Definition no_faults : faults := mkFaults None [] [] [] None None.

Fixpoint fault_for_selector (table : list (string * exn)) (value : string)
    : option exn :=
  match table with
  | [] => None
  | (v, e) :: rest =>
      if String.eqb v value then Some e else fault_for_selector rest value
  end.

Fixpoint fault_for_element (table : list (element * exn)) (el : element)
    : option exn :=
  match table with
  | [] => None
  | (x, e) :: rest =>
      if Nat.eqb x el then Some e else fault_for_element rest el
  end.

Definition faulty (f : faults) : Env scenario :=
  {| env_urlopen := env_urlopen scripted;
     env_sleep := env_sleep scripted;
     env_input := env_input scripted;
     env_install := fun w =>
       match f_install f with
       | Some e => (Raise e, w)
       | None => env_install scripted w
       end;
     env_Edge := env_Edge scripted;
     env_execute_script := env_execute_script scripted;
     env_implicitly_wait := env_implicitly_wait scripted;
     env_set_page_load_timeout := env_set_page_load_timeout scripted;
     env_get := env_get scripted;
     env_save_screenshot := env_save_screenshot scripted;
     env_wait_clickable := fun d by_ value timeout w =>
       match fault_for_selector (f_wait f) value with
       | Some e => (Raise e, w)
       | None => env_wait_clickable scripted d by_ value timeout w
       end;
     env_find_element := fun d by_ value w =>
       match fault_for_selector (f_find f) value with
       | Some e => (Raise e, w)
       | None => env_find_element scripted d by_ value w
       end;
     env_current_url := fun d w =>
       match f_url f with
       | Some e => (Raise e, w)
       | None => env_current_url scripted d w
       end;
     env_click := fun el w =>
       match fault_for_element (f_click f) el with
       | Some e => (Raise e, w)
       | None => env_click scripted el w
       end;
     env_clear := env_clear scripted;
     env_send_keys := env_send_keys scripted;
     env_quit := fun d w =>
       match f_quit f with
       | Some e => (Raise e, w)
       | None => env_quit scripted d w
       end |}.

(** A console with a legacy code page: it takes ASCII lines and refuses
    any other with a [UnicodeEncodeError]. *)
Definition is_ascii_line (line : string) : bool :=
  forallb (fun ch => (nat_of_ascii ch <? 128)%nat) (list_ascii_of_string line).

Definition charmap_error : exn :=
  mkExn UnicodeEncodeError "'charmap' codec can't encode character".

Definition ascii_console : Console scenario :=
  {| console_write := fun line w =>
       if is_ascii_line line then (Ret tt, w) else (Raise charmap_error, w) |}.

(** A complete login form; after submission the browser is on the library
    page. *)
Definition login_form : scenario :=
  mkScenario http_ok http_ok (Ret 7%nat) (Ret tt)
    [(CSS_SELECTOR, "input[name='email']", 1%nat);
     (CSS_SELECTOR, "input[type='password']", 2%nat);
     (CSS_SELECTOR, "button[type='submit']", 3%nat);
     (XPATH, "//button[contains(text(), 'Sign In')]", 4%nat)]
    [] "https://www.dndbeyond.com/sources".

(** A sign-in URL without a return address, on a page that shows a user
    menu. *)
Definition user_menu_on_sign_in : scenario :=
  mkScenario http_ok http_ok (Ret 7%nat) (Ret tt) []
    [(XPATH, "//div[contains(@class, 'user-menu')]", 9%nat)]
    "https://www.dndbeyond.com/sign-in".

(** The browser binary is missing: Edge cannot start. *)
Definition edge_missing : scenario :=
  mkScenario http_ok http_ok
    (Raise (mkExn WebDriverException "Message: unknown error: cannot find msedge binary"))
    (Ret tt) [] [] "".

(** The exceptions the fault tables below use. *)
Definition stale_reference : exn :=
  mkExn StaleElementReferenceException "Message: stale element reference".

Definition click_intercepted : exn :=
  mkExn ElementClickInterceptedException "Message: element click intercepted".

Definition session_gone : exn :=
  mkExn WebDriverException "Message: invalid session id".

(** * Properties *)

(** ** Exceptions *)

Lemma isinstance_base (e : exn) : isinstance e BaseException = true.
Proof. destruct e as [[] m]; reflexivity. Qed.

Lemma timeout_is_exception (e : exn) :
  isinstance e TimeoutException = true -> isinstance e Exception = true.
Proof. destruct e as [[] m]; cbn; congruence. Qed.

Lemma urlerror_is_exception (e : exn) :
  isinstance e URLError = true -> isinstance e Exception = true.
Proof. destruct e as [[] m]; cbn; congruence. Qed.

Lemma webdriver_is_exception (e : exn) :
  isinstance e WebDriverException = true -> isinstance e Exception = true.
Proof. destruct e as [[] m]; cbn; congruence. Qed.

(** ** Substrings *)

Lemma prefix_app (sub rest : string) :
  prefix sub (sub ++ rest)%string = true.
Proof.
  induction sub as [|c sub IH]; cbn.
  - destruct rest; reflexivity.
  - destruct (ascii_dec c c); [exact IH | congruence].
Qed.

Lemma prefix_split (sub s : string) :
  prefix sub s = true -> exists rest, s = (sub ++ rest)%string.
Proof.
  revert s; induction sub as [|c sub IH]; intros s H.
  - exists s; reflexivity.
  - destruct s as [|c' s]; cbn in H; [discriminate|].
    destruct (ascii_dec c c') as [->|]; [|discriminate].
    destruct (IH _ H) as [rest ->]. exists rest; reflexivity.
Qed.

(** [contains] is Python's [in]: the needle occurs somewhere in the string. *)
Lemma contains_spec (sub s : string) :
  contains sub s = true <->
  exists before after, s = (before ++ sub ++ after)%string.
Proof.
  split.
  - induction s as [|c s IH]; cbn; intros H.
    + rewrite orb_false_r in H. destruct sub; [|discriminate].
      exists "", ""; reflexivity.
    + apply orb_true_iff in H. destruct H as [H|H].
      * change (prefix sub (String c s) = true) in H.
        destruct (prefix_split _ _ H) as [rest ->].
        exists "", rest; reflexivity.
      * destruct (IH H) as (b & a & ->). exists (String c b), a; reflexivity.
  - intros (before & after & ->).
    induction before as [|c b IH].
    + cbn [append]. pose proof (prefix_app sub after) as P.
      destruct (sub ++ after)%string; cbn [contains]; rewrite P; reflexivity.
    + cbn [append contains]. rewrite IH. apply orb_true_r.
Qed.

Section Proofs.

Context {W : Type} (env : Env W).

#[local] Abbreviation M := (M W).
#[local] Abbreviation state := (state W).

(** ** Running the monad *)

Lemma run_bind {A B} (m : M A) (k : A -> M B) (s : state) :
  bind m k s =
  match m s with
  | (Ret a, s') => k a s'
  | (Raise e, s') => (Raise e, s')
  end.
Proof. reflexivity. Qed.

Lemma run_try_except {A} (m : M A) hs (s : state) :
  try_except m hs s =
  match m s with
  | (Ret a, s') => (Ret a, s')
  | (Raise e, s') => dispatch hs e s'
  end.
Proof. reflexivity. Qed.

Lemma run_call {A} (ev : event) (f : W -> outcome A * W) (s : state) :
  call ev f s =
  (fst (f (world s)),
   {| self := self s; world := snd (f (world s)); log := log s ++ [ev] |}).
Proof. unfold call. destruct (f (world s)); reflexivity. Qed.

(** ** Framing: what a run leaves untouched *)

Section Framing.

Context (R : state -> state -> Prop) {F : Frame R}.

Lemma keeps_ret {A} (a : A) : keeps R (ret a : M A).
Proof. intros s. apply frame_refl. Qed.

Lemma keeps_raise {A} (e : exn) : keeps R (raise e : M A).
Proof. intros s. apply frame_refl. Qed.

Lemma keeps_bind {A B} (m : M A) (k : A -> M B) :
  keeps R m -> (forall a, keeps R (k a)) -> keeps R (bind m k).
Proof.
  intros Hm Hk s. rewrite run_bind. specialize (Hm s).
  destruct (m s) as [[a|e] s1]; cbn [snd] in *; [|exact Hm].
  eapply frame_trans; [exact Hm | apply Hk].
Qed.

Lemma keeps_dispatch {A} (hs : list (exn_class * (exn -> M A))) (e : exn) :
  Forall (fun h => forall e, keeps R (snd h e)) hs -> keeps R (dispatch hs e).
Proof.
  induction 1 as [|[c h] hs Hh _ IH]; cbn [dispatch].
  - apply keeps_raise.
  - destruct (isinstance e c); [apply Hh | exact IH].
Qed.

Lemma keeps_try_except {A} (m : M A) hs :
  keeps R m -> Forall (fun h => forall e, keeps R (snd h e)) hs ->
  keeps R (try_except m hs).
Proof.
  intros Hm Hh s. rewrite run_try_except. specialize (Hm s).
  destruct (m s) as [[a|e] s1]; cbn [snd] in *; [exact Hm|].
  eapply frame_trans; [exact Hm | apply keeps_dispatch, Hh].
Qed.

Lemma keeps_call {A} (ev : event) (f : W -> outcome A * W) :
  frame_ok ev = true -> keeps R (call ev f).
Proof. intros H s. rewrite run_call. cbn [snd]. apply frame_step, H. Qed.

Lemma keeps_print (line : string) :
  frame_ok (EPrint line) = true -> keeps R (print line).
Proof. intros H s. apply frame_step, H. Qed.

Lemma keeps_get_self : keeps R get_self.
Proof. intros s. apply frame_refl. Qed.

Lemma keeps_the_driver attr : keeps R (the_driver attr).
Proof.
  apply keeps_bind; [apply keeps_get_self|]. intros a.
  destruct (driver a); [apply keeps_ret | apply keeps_raise].
Qed.

End Framing.

(** One structural step of a framing proof. *)
Ltac keeps_step :=
  match goal with
  | |- keeps _ (ret _) => apply keeps_ret; exact _
  | |- keeps _ (raise _) => apply keeps_raise; exact _
  | |- keeps _ (print _) =>
      eapply keeps_print; reflexivity
  | |- keeps _ (call _ _) =>
      eapply keeps_call; reflexivity
  | |- keeps _ (sleep _ _) =>
      eapply keeps_call; reflexivity
  | |- keeps _ get_self => apply keeps_get_self; exact _
  | |- keeps _ (the_driver _) => apply keeps_the_driver; exact _
  | |- keeps _ (bind _ _) => apply keeps_bind; [exact _ | | intro]
  | |- keeps _ (try_except _ _) =>
      apply keeps_try_except;
      [exact _ | | repeat (apply Forall_cons; [cbn [snd]; intro|]);
                   try apply Forall_nil]
  | |- keeps _ (match ?x with _ => _ end) => destruct x
  | H : keeps ?R ?m |- keeps ?R ?m => exact H
  end.

Ltac keeps_auto := repeat keeps_step; eauto.

Lemma same_quits_step (s : state) (w : W) (ev : event) :
  negb (is_quit ev) = true ->
  same_quits s {| self := self s; world := w; log := log s ++ [ev] |}.
Proof.
  intros H. unfold same_quits, count. cbn.
  rewrite filter_app, length_app. cbn.
  destruct (is_quit ev); [discriminate | cbn; lia].
Qed.

Lemma same_quits_trans (a b c : state) :
  same_quits a b -> same_quits b c -> same_quits a c.
Proof. unfold same_quits. congruence. Qed.

#[local] Instance Frame_same_quits : Frame (@same_quits W) :=
  {| frame_ok := fun ev => negb (is_quit ev);
     frame_refl := fun s => eq_refl;
     frame_trans := same_quits_trans;
     frame_step := same_quits_step |}.

Lemma no_bootstrap_step (s : state) (w : W) (ev : event) :
  negb (is_bootstrap ev) = true ->
  no_bootstrap s {| self := self s; world := w; log := log s ++ [ev] |}.
Proof.
  intros H. unfold no_bootstrap, count. cbn.
  rewrite filter_app, length_app. cbn.
  destruct (is_bootstrap ev); [discriminate | cbn; split; [lia | reflexivity]].
Qed.

Lemma no_bootstrap_trans (a b c : state) :
  no_bootstrap a b -> no_bootstrap b c -> no_bootstrap a c.
Proof. unfold no_bootstrap. intros [H1 H1'] [H2 H2']. split; congruence. Qed.

#[local] Instance Frame_no_bootstrap : Frame (@no_bootstrap W) :=
  {| frame_ok := fun ev => negb (is_bootstrap ev);
     frame_refl := fun s => conj eq_refl eq_refl;
     frame_trans := no_bootstrap_trans;
     frame_step := no_bootstrap_step |}.

(** ** The connectivity checks *)

Lemma check_internet_connection_no_bootstrap :
  keeps no_bootstrap (check_internet_connection env).
Proof. unfold check_internet_connection. keeps_auto. Qed.

Lemma check_dndbeyond_accessibility_no_bootstrap :
  keeps no_bootstrap (check_dndbeyond_accessibility env).
Proof. unfold check_dndbeyond_accessibility. keeps_auto. Qed.

(** The verdict and the world a check leaves depend on the world it starts
    in, not on what was logged before. *)
Lemma check_internet_connection_world (s t : state) :
  world s = world t ->
  fst (check_internet_connection env s) = fst (check_internet_connection env t)
  /\ world (snd (check_internet_connection env s)) =
     world (snd (check_internet_connection env t)).
Proof.
  intros H. unfold check_internet_connection, try_except, call, print. cbn.
  rewrite H. destruct (env_urlopen env _ _ _) as [[r|e] w]; cbn.
  - destruct (getcode r =? 200); cbn; auto.
  - destruct (isinstance e URLError); cbn; auto.
    destruct (isinstance e Exception); cbn; auto.
Qed.

Lemma check_dndbeyond_accessibility_world (s t : state) :
  world s = world t ->
  fst (check_dndbeyond_accessibility env s) =
  fst (check_dndbeyond_accessibility env t)
  /\ world (snd (check_dndbeyond_accessibility env s)) =
     world (snd (check_dndbeyond_accessibility env t)).
Proof.
  intros H. unfold check_dndbeyond_accessibility, try_except, call, print. cbn.
  rewrite H. destruct (env_urlopen env _ _ _) as [[r|e] w]; cbn.
  - destruct (getcode r =? 200); cbn; auto.
  - destruct (isinstance e URLError); cbn; auto.
    destruct (isinstance e Exception); cbn; auto.
Qed.

(** Over the console [print] assumes, the two embeddings of a check are
    one and the same. *)
Lemma check_internet_connection_on_plain (s : state) :
  check_internet_connection_on env plain_console s =
  check_internet_connection env s.
Proof.
  unfold check_internet_connection_on, check_internet_connection, try_except,
    print_on, call, print. cbn.
  destruct (env_urlopen env _ _ _) as [[r|e] w]; cbn.
  - destruct (getcode r =? 200); reflexivity.
  - destruct (isinstance e URLError); cbn; [reflexivity|].
    destruct (isinstance e Exception); reflexivity.
Qed.

Lemma check_dndbeyond_accessibility_on_plain (s : state) :
  check_dndbeyond_accessibility_on env plain_console s =
  check_dndbeyond_accessibility env s.
Proof.
  unfold check_dndbeyond_accessibility_on, check_dndbeyond_accessibility,
    try_except, print_on, call, print. cbn.
  destruct (env_urlopen env _ _ _) as [[r|e] w]; cbn.
  - destruct (getcode r =? 200); reflexivity.
  - destruct (isinstance e URLError); cbn; [reflexivity|].
    destruct (isinstance e Exception); reflexivity.
Qed.

(** Why the console matters: the [except] clauses print too.  When
    [urlopen] fails with a [URLError] and the console refuses the line the
    handler prints, the exception of that [print] is what the check ends
    with, whatever its class. *)
Lemma check_internet_connection_on_refused_line (c : Console W) (s : state)
    w1 e w2 x w3 :
  console_write c "Checking internet connectivity..." (world s) = (Ret tt, w1) ->
  env_urlopen env "https://www.google.com" 10 w1 = (Raise e, w2) ->
  isinstance e URLError = true ->
  console_write c ("✗ Internet connection failed: " ++ str e) w2
    = (Raise x, w3) ->
  fst (check_internet_connection_on env c s) = Raise x.
Proof.
  intros H1 H2 He H3.
  unfold check_internet_connection_on, try_except, print_on, call. cbn.
  rewrite H1. cbn. rewrite H2. cbn. rewrite He. cbn. cbn in H3.
  rewrite H3. reflexivity.
Qed.

(** C7.  On a console that takes every line it is given, whatever the
    network does (any response, or any failure [urlopen] reports as an
    exception below [Exception]: DNS failure, timeout, refused connection), each
    connectivity check returns a boolean and raises nothing; the boolean is
    [True] only for a response whose status is 200, a successful status,
    and every failure gives [False]. *)
Theorem connectivity_checks_never_raise (c : Console W) (s : state) :
  let o1 :=
    fst (env_urlopen env "https://www.google.com" 10
           (snd (console_write c "Checking internet connectivity..."
                   (world s)))) in
  let o2 :=
    fst (env_urlopen env "https://www.dndbeyond.com" 15
           (snd (console_write c "Checking D&D Beyond accessibility..."
                   (world s)))) in
  accepts_all c ->
  network_outcome o1 = true -> network_outcome o2 = true ->
  (exists b, fst (check_internet_connection_on env c s) = Ret b /\
     (b = true -> exists r, o1 = Ret r /\ getcode r = 200 /\
                            200 <= getcode r < 300) /\
     (forall e, o1 = Raise e -> b = false)) /\
  (exists b, fst (check_dndbeyond_accessibility_on env c s) = Ret b /\
     (b = true -> exists r, o2 = Ret r /\ getcode r = 200 /\
                            200 <= getcode r < 300) /\
     (forall e, o2 = Raise e -> b = false)).
Proof.
  cbn zeta. intros Hc H1 H2.
  assert (P : forall line w,
             console_write c line w = (Ret tt, snd (console_write c line w))).
  { intros line w. specialize (Hc line w).
    destruct (console_write c line w) as [o w']. cbn in *. subst o.
    reflexivity. }
  split.
  - unfold check_internet_connection_on, try_except, print_on, call. cbn.
    rewrite P. cbn.
    destruct (env_urlopen env "https://www.google.com" _ _) as [[r|e] w];
      cbn in *.
    + destruct (getcode r =? 200) eqn:E; cbn.
      * rewrite P. cbn. exists true. split; [reflexivity|].
        split; [|discriminate]. intros _. apply Z.eqb_eq in E.
        exists r. repeat split; lia.
      * exists false. split; [reflexivity|].
        split; [discriminate | reflexivity].
    + destruct (isinstance e URLError); cbn; [|rewrite H1; cbn];
        rewrite P; cbn; exists false; repeat split; try discriminate.
  - unfold check_dndbeyond_accessibility_on, try_except, print_on, call. cbn.
    rewrite P. cbn.
    destruct (env_urlopen env "https://www.dndbeyond.com" _ _) as [[r|e] w];
      cbn in *.
    + destruct (getcode r =? 200) eqn:E; cbn.
      * rewrite P. cbn. exists true. split; [reflexivity|].
        split; [|discriminate]. intros _. apply Z.eqb_eq in E.
        exists r. repeat split; lia.
      * exists false. split; [reflexivity|].
        split; [discriminate | reflexivity].
    + destruct (isinstance e URLError); cbn; [|rewrite H2; cbn];
        rewrite P; cbn; exists false; repeat split; try discriminate.
Qed.

(** ** [authenticate]: the connectivity gate *)

(** C9.  When the reference-host check returns [False], or it returns
    [True] and the target-host check that follows returns [False],
    [authenticate] ends with [False] after logging the network message,
    without a single bootstrap call (no driver download, no browser start)
    and with [self.driver] untouched: no session is created. *)
Theorem authenticate_network_unreachable (s : state) :
  let s1 := snd (check_internet_connection env s) in
  (fst (check_internet_connection env s) = Ret false ->
   exists s' l,
     authenticate env s = (Ret false, s') /\ no_bootstrap s s' /\
     log s' = l ++ [EPrint "❌ No internet connection available"]) /\
  (fst (check_internet_connection env s) = Ret true ->
   fst (check_dndbeyond_accessibility env s1) = Ret false ->
   exists s' l,
     authenticate env s = (Ret false, s') /\ no_bootstrap s s' /\
     log s' = l ++ [EPrint "❌ D&D Beyond is not accessible"]).
Proof.
  cbn zeta.
  set (s0 := emit (EPrint (str_mul "=" 50))
               (emit (EPrint "Starting D&D Beyond authentication...") s)).
  assert (H0 : no_bootstrap s s0).
  { eapply frame_trans; apply frame_step; reflexivity. }
  destruct (check_internet_connection_world s s0 eq_refl) as [E1 E2].
  pose proof (check_internet_connection_no_bootstrap s0) as K1.
  split.
  - intros H. rewrite H in E1.
    unfold authenticate. rewrite run_try_except, run_bind. cbn [print].
    rewrite run_bind. cbn [print]. fold s0. rewrite run_bind.
    destruct (check_internet_connection env s0) as [o1 s1]. cbn in E1, K1.
    subst o1. cbn.
    eexists _, _. split; [reflexivity|]. split; [|reflexivity].
    eapply frame_trans; [exact H0|]. eapply frame_trans; [exact K1|].
    apply frame_step. reflexivity.
  - intros H H'. rewrite H in E1.
    destruct (check_dndbeyond_accessibility_world _ _ E2) as [E3 _].
    rewrite H' in E3.
    unfold authenticate. rewrite run_try_except, run_bind. cbn [print].
    rewrite run_bind. cbn [print]. fold s0. rewrite run_bind.
    pose proof (check_dndbeyond_accessibility_no_bootstrap
                  (snd (check_internet_connection env s0))) as K2.
    destruct (check_internet_connection env s0) as [o1 s1]. cbn in E1, K1.
    subst o1. cbn [negb snd] in *. rewrite run_bind.
    destruct (check_dndbeyond_accessibility env s1) as [o2 s2].
    cbn in E3, K2. subst o2. cbn.
    eexists _, _. split; [reflexivity|]. split; [|reflexivity].
    eapply frame_trans; [exact H0|]. eapply frame_trans; [exact K1|].
    eapply frame_trans; [exact K2|]. apply frame_step. reflexivity.
Qed.

(** ** Releasing the session *)

(** Nothing [authenticate] runs ever calls [quit]. *)

Lemma assign_driver_same_quits (d : handle) :
  keeps same_quits (@assign_driver W d).
Proof. intros s. reflexivity. Qed.

Lemma setup_driver_same_quits : keeps same_quits (setup_driver env).
Proof.
  pose proof assign_driver_same_quits.
  unfold setup_driver. keeps_auto.
Qed.

(** A bootstrap reports success only after every one of its calls returned,
    the property override included; it has then stored the session in
    [self.driver] and printed its completion line. *)
Lemma setup_driver_true_inv (s s' : state) :
  setup_driver env s = (Ret true, s') ->
  exists service w1 d w2 w3 w4,
    env_install env (world s) = (Ret service, w1) /\
    env_Edge env service (edge_options (headless (self s))) w1 = (Ret d, w2) /\
    env_execute_script env d webdriver_override w2 = (Ret tt, w3) /\
    env_implicitly_wait env d 10 w3 = (Ret tt, w4) /\
    env_set_page_load_timeout env d 30 w4 = (Ret tt, world s') /\
    driver (self s') = Some d /\
    exists l, log s' = l ++ [EPrint "✓ Edge WebDriver setup complete"].
Proof.
  unfold setup_driver, try_except, call, print, assign_driver. cbn.
  destruct (env_install env _) as [[service|e1] w1]; cbn.
  2: { destruct (isinstance e1 WebDriverException); cbn; [discriminate|].
       destruct (isinstance e1 Exception); cbn; discriminate. }
  destruct (env_Edge env _ _ _) as [[d|e2] w2] eqn:E2; cbn.
  2: { destruct (isinstance e2 WebDriverException); cbn; [discriminate|].
       destruct (isinstance e2 Exception); cbn; discriminate. }
  destruct (env_execute_script env _ _ _) as [[[]|e3] w3] eqn:E3; cbn.
  2: { destruct (isinstance e3 WebDriverException); cbn; [discriminate|].
       destruct (isinstance e3 Exception); cbn; discriminate. }
  destruct (env_implicitly_wait env _ _ _) as [[[]|e4] w4] eqn:E4; cbn.
  2: { destruct (isinstance e4 WebDriverException); cbn; [discriminate|].
       destruct (isinstance e4 Exception); cbn; discriminate. }
  destruct (env_set_page_load_timeout env _ _ _) as [[[]|e5] w5] eqn:E5; cbn.
  2: { destruct (isinstance e5 WebDriverException); cbn; [discriminate|].
       destruct (isinstance e5 Exception); cbn; discriminate. }
  intros H. injection H as <-. cbn.
  exists service, w1, d, w2, w3, w4. repeat split; eauto.
Qed.

(** The same, followed along a whole run: once [setup_driver] has printed
    its completion line, [self.driver] holds a session until the end. *)

Lemma session_kept_trans (a b c : state) :
  session_kept a b -> session_kept b c -> session_kept a c.
Proof.
  intros [H1 H1'] [H2 H2']. split; [auto|].
  intros H. destruct (H2' H) as [Hb|Hd]; [|auto].
  destruct (H1' Hb) as [Ha|Hd]; auto.
Qed.

Lemma session_kept_step (s : state) (w : W) (ev : event) :
  negb (is_bootstrap_done ev) = true ->
  session_kept s {| self := self s; world := w; log := log s ++ [ev] |}.
Proof.
  intros H. split; cbn [self log]; [auto|].
  rewrite existsb_app. cbn [existsb]. apply negb_true_iff in H. rewrite H.
  rewrite !orb_false_r. auto.
Qed.

#[local] Instance Frame_session_kept : Frame (@session_kept W) :=
  {| frame_ok := fun ev => negb (is_bootstrap_done ev);
     frame_refl := fun s => conj (fun H => H) (fun H => or_introl H);
     frame_trans := session_kept_trans;
     frame_step := session_kept_step |}.

Lemma session_kept_extend (s : state) (a : auth) (w : W) (l : list event) :
  (a = self s /\ existsb is_bootstrap_done l = false) \/
  (exists d, a = set_driver (self s) d) ->
  session_kept s {| self := a; world := w; log := log s ++ l |}.
Proof.
  intros [[-> Hl]|[d ->]]; split; cbn [self log driver set_driver];
    try discriminate; auto.
  - rewrite existsb_app, Hl, orb_false_r. auto.
  - right. discriminate.
Qed.

Lemma setup_driver_session_kept : keeps session_kept (setup_driver env).
Proof.
  unfold setup_driver. apply keeps_try_except; [exact _ | | keeps_auto].
  - intros s. unfold call, print, assign_driver. cbn.
    destruct (env_install env _) as [[service|e1] w1]; cbn.
    2: { rewrite <- !app_assoc. apply session_kept_extend. left. auto. }
    destruct (env_Edge env _ _ _) as [[d|e2] w2]; cbn.
    2: { rewrite <- !app_assoc. apply session_kept_extend. left. auto. }
    destruct (env_execute_script env _ _ _) as [[[]|e3] w3]; cbn.
    2: { rewrite <- !app_assoc. apply session_kept_extend. right. eauto. }
    destruct (env_implicitly_wait env _ _ _) as [[[]|e4] w4]; cbn.
    2: { rewrite <- !app_assoc. apply session_kept_extend. right. eauto. }
    destruct (env_set_page_load_timeout env _ _ _) as [[[]|e5] w5]; cbn.
    2: { rewrite <- !app_assoc. apply session_kept_extend. right. eauto. }
    unfold emit. cbn [self world log].
    rewrite <- !app_assoc. apply session_kept_extend. right. eauto.
  - apply Forall_cons; [cbn [snd]; intro; keeps_auto|].
    apply Forall_cons; [cbn [snd]; intro; keeps_auto|]. apply Forall_nil.
Qed.

(** Both facts hold along everything [authenticate] runs. *)

Lemma attempt_frame_trans (a b c : state) :
  attempt_frame a b -> attempt_frame b c -> attempt_frame a c.
Proof.
  intros [H1 H1'] [H2 H2'].
  split; [eapply same_quits_trans | eapply session_kept_trans]; eauto.
Qed.

Lemma attempt_frame_step (s : state) (w : W) (ev : event) :
  negb (is_quit ev) && negb (is_bootstrap_done ev) = true ->
  attempt_frame s {| self := self s; world := w; log := log s ++ [ev] |}.
Proof.
  intros H. apply andb_true_iff in H. destruct H.
  split; [apply same_quits_step | apply session_kept_step]; assumption.
Qed.

#[local] Instance Frame_attempt_frame : Frame (@attempt_frame W) :=
  {| frame_ok := fun ev => negb (is_quit ev) && negb (is_bootstrap_done ev);
     frame_refl := fun s => conj (frame_refl s) (frame_refl s);
     frame_trans := attempt_frame_trans;
     frame_step := attempt_frame_step |}.

Lemma setup_driver_attempt_frame : keeps attempt_frame (setup_driver env).
Proof.
  intros s. split;
    [apply setup_driver_same_quits | apply setup_driver_session_kept].
Qed.

Lemma wait_for_element_attempt_frame by_ value timeout :
  keeps attempt_frame (wait_for_element env by_ value timeout).
Proof. unfold wait_for_element. keeps_auto. Qed.

Lemma click_sign_in_with_wizards_attempt_frame :
  keeps attempt_frame (click_sign_in_with_wizards env).
Proof.
  pose proof wait_for_element_attempt_frame.
  assert (L : forall l,
             keeps attempt_frame (click_sign_in_with_wizards_loop env l)).
  { induction l as [|selector rest IH]; cbn [click_sign_in_with_wizards_loop];
      keeps_auto. }
  unfold click_sign_in_with_wizards. keeps_auto.
Qed.

Lemma field_loop_attempt_frame selectors field :
  keeps attempt_frame (field_loop env selectors field).
Proof.
  pose proof wait_for_element_attempt_frame.
  revert field. induction selectors as [|selector rest IH]; intros field;
    cbn [field_loop]; keeps_auto.
Qed.

Lemma enter_credentials_attempt_frame :
  keeps attempt_frame (enter_credentials env).
Proof.
  pose proof field_loop_attempt_frame.
  unfold enter_credentials. keeps_auto.
Qed.

Lemma submit_login_attempt_frame : keeps attempt_frame (submit_login env).
Proof.
  pose proof wait_for_element_attempt_frame.
  assert (L : forall l, keeps attempt_frame (submit_login_loop env l)).
  { induction l as [|selector rest IH]; cbn [submit_login_loop]; keeps_auto. }
  unfold submit_login. keeps_auto.
Qed.

Lemma check_login_success_attempt_frame :
  keeps attempt_frame (check_login_success env).
Proof.
  assert (L1 : forall l url,
             keeps attempt_frame (success_indicators_loop l url : M _)).
  { induction l as [|indicator rest IH]; intros url;
      cbn [success_indicators_loop]; keeps_auto. }
  assert (L2 : forall l, keeps attempt_frame (user_elements_loop env l)).
  { induction l as [|selector rest IH]; cbn [user_elements_loop]; keeps_auto. }
  unfold check_login_success. keeps_auto.
Qed.

Lemma authenticate_attempt_frame : keeps attempt_frame (authenticate env).
Proof.
  pose proof setup_driver_attempt_frame.
  pose proof click_sign_in_with_wizards_attempt_frame.
  pose proof enter_credentials_attempt_frame.
  pose proof submit_login_attempt_frame.
  pose proof check_login_success_attempt_frame.
  assert (keeps attempt_frame (check_internet_connection env))
    by (unfold check_internet_connection; keeps_auto).
  assert (keeps attempt_frame (check_dndbeyond_accessibility env))
    by (unfold check_dndbeyond_accessibility; keeps_auto).
  unfold authenticate. keeps_auto.
Qed.

(** What [close] does to the log, by the content of [self.driver]. *)
Lemma close_run (s : state) :
  self (snd (close env s)) = self s /\
  log (snd (close env s)) =
    match driver (self s) with
    | Some d => log s ++ [EQuit d]
    | None => log s
    end.
Proof.
  unfold close. rewrite run_bind. cbn [get_self].
  destruct (driver (self s)) as [d|]; [rewrite run_call|]; cbn; auto.
Qed.

(** C1.  In every run of [main] -- the scope that wraps the whole attempt in
    [try ... finally: auth.close()] -- in which a session was created (the
    object's [driver] holds one), [driver.quit] is called exactly once, and
    it is the last call of the run, whichever way [authenticate] ended:
    success, a failed later step, or an exception of any class.  A run in
    which bootstrap reported success is such a run.  With no session
    created, [quit] is not called at all. *)
Theorem main_releases_session_once (user pass : string) (s : state) :
  let s' := snd (main env user pass s) in
  (existsb is_bootstrap_done (log s) = false ->
   existsb is_bootstrap_done (log s') = true ->
   released_once s s') /\
  match driver (self s') with
  | Some d =>
      count is_quit (log s') = S (count is_quit (log s)) /\
      exists l, log s' = l ++ [EQuit d]
  | None => count is_quit (log s') = count is_quit (log s)
  end.
Proof.
  pose proof authenticate_attempt_frame as KA.
  cbn zeta. unfold released_once, main. rewrite run_bind. cbn [construct].
  set (s0 := {| self := init user pass false; world := world s;
                log := log s |}).
  match goal with
  | |- context [try_finally ?b _ s0] => set (body := b)
  end.
  assert (KB : keeps attempt_frame body) by (subst body; keeps_auto).
  specialize (KB s0). unfold try_finally.
  destruct (body s0) as [o s1]. cbn [snd] in KB.
  destruct (close_run s1) as [C1 C2].
  assert (E : snd (let (o0, s'') := close env s1 in
                   match o0 with
                   | Ret _ => (o, s'')
                   | Raise e => (Raise e, s'')
                   end) = snd (close env s1)).
  { destruct (close env s1) as [[[]|e] s2]; reflexivity. }
  rewrite E, C1, C2.
  destruct KB as [KQ [_ KS]]. unfold same_quits in KQ. cbn [log s0] in KQ, KS.
  assert (Q : forall d, driver (self s1) = Some d ->
                count is_quit (log s1 ++ [EQuit d]) = S (count is_quit (log s))).
  { intros d _. unfold count in *. rewrite filter_app, length_app. cbn. lia. }
  split.
  - intros H0 H1.
    assert (H2 : existsb is_bootstrap_done (log s1) = true).
    { destruct (driver (self s1)); [|exact H1].
      rewrite existsb_app in H1. cbn in H1. rewrite !orb_false_r in H1.
      exact H1. }
    destruct (KS H2) as [H3|H3]; [congruence|].
    destruct (driver (self s1)) as [d|]; [|congruence].
    exists d, (log s1). auto.
  - destruct (driver (self s1)) as [d|]; [|exact KQ].
    split; [auto | eauto].
Qed.

(** ** Resolving elements *)

Lemma the_driver_run (s : state) (d : handle) {attr : string} :
  driver (self s) = Some d -> the_driver attr s = (Ret d, s).
Proof. intros H. unfold the_driver. cbn. rewrite H. reflexivity. Qed.

Lemma wait_for_element_found (s : state) d by_ value timeout el w :
  driver (self s) = Some d ->
  env_wait_clickable env d by_ value timeout (world s) = (Ret el, w) ->
  wait_for_element env by_ value timeout s =
  (Ret (Some el),
   {| self := self s; world := w;
      log := log s ++ [EWaitClickable d by_ value timeout] |}).
Proof.
  intros Hd Hw. unfold wait_for_element.
  rewrite run_try_except, run_bind, (the_driver_run _ Hd), run_bind, run_call.
  rewrite Hw. reflexivity.
Qed.

Lemma wait_for_element_timeout (s : state) d by_ value timeout e w :
  driver (self s) = Some d ->
  env_wait_clickable env d by_ value timeout (world s) = (Raise e, w) ->
  isinstance e TimeoutException = true ->
  wait_for_element env by_ value timeout s =
  (Ret None,
   {| self := self s; world := w;
      log := log s ++ [EWaitClickable d by_ value timeout;
                       EPrint ("Timeout waiting for element: " ++ value)] |}).
Proof.
  intros Hd Hw He. unfold wait_for_element.
  rewrite run_try_except, run_bind, (the_driver_run _ Hd), run_bind, run_call.
  rewrite Hw. cbn [fst snd dispatch]. rewrite He. cbn.
  rewrite <- app_assoc. reflexivity.
Qed.

(** Candidates that time out are passed over, each leaving its poll and its
    console line in the log; the loop goes on with the rest of the set. *)
Lemma field_loop_skip (pre rest : list string) (s : state) d w :
  driver (self s) = Some d ->
  all_time_out env d (map (pair CSS_SELECTOR) pre) 5 (world s) = Some w ->
  field_loop env (pre ++ rest) None s =
  field_loop env rest None
    {| self := self s; world := w;
       log := log s ++ timed_out_events d (map (pair CSS_SELECTOR) pre) 5 |}.
Proof.
  revert s. induction pre as [|selector pre IH]; intros s Hd H.
  - cbn in *. injection H as <-. rewrite app_nil_r. destruct s; reflexivity.
  - cbn [map all_time_out] in H. cbn [app field_loop].
    destruct (env_wait_clickable env d CSS_SELECTOR selector 5 (world s))
      as [[el|e] w1] eqn:Hw; [discriminate|].
    destruct (isinstance e TimeoutException) eqn:He; [|discriminate].
    rewrite run_bind, (wait_for_element_timeout _ _ _ _ Hd Hw He).
    rewrite IH; [|exact Hd|exact H]. cbn [self world log].
    cbn [map timed_out_events flat_map fst snd].
    rewrite <- app_assoc. reflexivity.
Qed.

Lemma click_sign_in_with_wizards_loop_skip (pre rest : list string)
    (s : state) d w :
  driver (self s) = Some d ->
  all_time_out env d (map (pair XPATH) pre) 5 (world s) = Some w ->
  click_sign_in_with_wizards_loop env (pre ++ rest) s =
  click_sign_in_with_wizards_loop env rest
    {| self := self s; world := w;
       log := log s ++ timed_out_events d (map (pair XPATH) pre) 5 |}.
Proof.
  revert s. induction pre as [|selector pre IH]; intros s Hd H.
  - cbn in *. injection H as <-. rewrite app_nil_r. destruct s; reflexivity.
  - cbn [map all_time_out] in H. cbn [app click_sign_in_with_wizards_loop].
    destruct (env_wait_clickable env d XPATH selector 5 (world s))
      as [[el|e] w1] eqn:Hw; [discriminate|].
    destruct (isinstance e TimeoutException) eqn:He; [|discriminate].
    rewrite run_bind, run_try_except, run_bind.
    rewrite (wait_for_element_timeout _ _ _ _ Hd Hw He).
    cbn [ret Monad_M]. rewrite IH; [|exact Hd|exact H]. cbn [self world log].
    cbn [map timed_out_events flat_map fst snd].
    rewrite <- app_assoc. reflexivity.
Qed.

Lemma submit_login_loop_skip (pre rest : list string) (s : state) d w :
  driver (self s) = Some d ->
  all_time_out env d (map submit_locator pre) 5 (world s) = Some w ->
  submit_login_loop env (pre ++ rest) s =
  submit_login_loop env rest
    {| self := self s; world := w;
       log := log s ++ timed_out_events d (map submit_locator pre) 5 |}.
Proof.
  revert s. induction pre as [|selector pre IH]; intros s Hd H.
  - cbn in *. injection H as <-. rewrite app_nil_r. destruct s; reflexivity.
  - cbn [map all_time_out submit_locator] in H.
    cbn [app submit_login_loop].
    destruct (env_wait_clickable env d _ selector 5 (world s))
      as [[el|e] w1] eqn:Hw; [discriminate|].
    destruct (isinstance e TimeoutException) eqn:He; [|discriminate].
    rewrite run_bind, run_try_except, run_bind.
    assert (Hwait :
      (if prefix "//" selector
       then wait_for_element env XPATH selector 5
       else wait_for_element env CSS_SELECTOR selector 5) s =
      (Ret None,
       {| self := self s; world := w1;
          log := log s ++
            [EWaitClickable d (fst (submit_locator selector)) selector 5;
             EPrint ("Timeout waiting for element: " ++ selector)] |})).
    { unfold submit_locator. cbn [fst].
      destruct (prefix "//" selector);
        apply (wait_for_element_timeout _ _ _ _ Hd Hw He). }
    rewrite Hwait. cbn [ret Monad_M].
    rewrite IH; [|exact Hd|exact H]. cbn [self world log].
    cbn [map timed_out_events flat_map fst snd].
    rewrite <- app_assoc. reflexivity.
Qed.

Lemma field_loop_first_match (s : state) d
    (pre post : list string) (sel : string) el w1 w2 :
  driver (self s) = Some d ->
  all_time_out env d (map (pair CSS_SELECTOR) pre) 5 (world s) = Some w1 ->
  env_wait_clickable env d CSS_SELECTOR sel 5 w1 = (Ret el, w2) ->
  field_loop env (pre ++ sel :: post) None s =
  (Ret (Some el),
   {| self := self s; world := w2;
      log := log s ++ timed_out_events d (map (pair CSS_SELECTOR) pre) 5
                   ++ [EWaitClickable d CSS_SELECTOR sel 5] |}).
Proof.
  intros Hd Hpre Hsel.
  rewrite (field_loop_skip _ _ _ Hd Hpre). cbn [field_loop].
  rewrite run_bind.
  match goal with
  | |- context [wait_for_element env _ _ _ ?t] =>
      rewrite (wait_for_element_found t _ _ _ Hd Hsel)
  end.
  cbn. rewrite <- app_assoc. reflexivity.
Qed.

Lemma submit_login_loop_first_match (s : state) d
    (pre post : list string) (sel : string) el w1 w2 w3 :
  driver (self s) = Some d ->
  all_time_out env d (map submit_locator pre) 5 (world s) = Some w1 ->
  env_wait_clickable env d (fst (submit_locator sel)) sel 5 w1 = (Ret el, w2) ->
  env_click env el w2 = (Ret tt, w3) ->
  submit_login_loop env (pre ++ sel :: post) s =
  (Ret (Some true),
   {| self := self s; world := w3;
      log := log s ++ timed_out_events d (map submit_locator pre) 5
                   ++ [EWaitClickable d (fst (submit_locator sel)) sel 5;
                       EPrint "Found submit button, clicking...";
                       EClick el] |}).
Proof.
  intros Hd Hpre Hsel Hclick.
  rewrite (submit_login_loop_skip _ _ _ Hd Hpre). cbn [submit_login_loop].
  rewrite run_bind, run_try_except, run_bind.
  match goal with
  | |- context [(if prefix "//" sel then _ else _) ?t] =>
      assert (Hwait :
        (if prefix "//" sel
         then wait_for_element env XPATH sel 5
         else wait_for_element env CSS_SELECTOR sel 5) t =
        (Ret (Some el),
         {| self := self t; world := w2;
            log := log t ++
              [EWaitClickable d (fst (submit_locator sel)) sel 5] |}))
  end.
  { unfold submit_locator in *. cbn [fst] in *.
    destruct (prefix "//" sel);
      match goal with
      | |- wait_for_element env _ _ _ ?t = _ =>
          apply (wait_for_element_found t _ _ _ Hd Hsel)
      end. }
  rewrite Hwait. cbn [self world log].
  rewrite run_bind. cbn [print emit self world log].
  rewrite run_bind, run_call. cbn [self world log]. rewrite Hclick. cbn.
  rewrite <- !app_assoc. reflexivity.
Qed.

(** C5.  For every candidate list, when the candidates before [sel] all time
    out and [sel] is the first to match a clickable element [el], the search
    stops at [sel] with [el]: the field loops of [enter_credentials] yield
    [el], and the loop of [submit_login] clicks [el] and returns [True].
    The candidates after [sel] are never polled. *)
Theorem first_matching_candidate_wins (s : state) d
    (pre post : list string) (sel : string) el w1 w2 :
  driver (self s) = Some d ->
  (all_time_out env d (map (pair CSS_SELECTOR) pre) 5 (world s) = Some w1 ->
   env_wait_clickable env d CSS_SELECTOR sel 5 w1 = (Ret el, w2) ->
   field_loop env (pre ++ sel :: post) None s =
   (Ret (Some el),
    {| self := self s; world := w2;
       log := log s ++ timed_out_events d (map (pair CSS_SELECTOR) pre) 5
                    ++ [EWaitClickable d CSS_SELECTOR sel 5] |})) /\
  (all_time_out env d (map submit_locator pre) 5 (world s) = Some w1 ->
   env_wait_clickable env d (fst (submit_locator sel)) sel 5 w1 = (Ret el, w2) ->
   forall w3, env_click env el w2 = (Ret tt, w3) ->
   submit_login_loop env (pre ++ sel :: post) s =
   (Ret (Some true),
    {| self := self s; world := w3;
       log := log s ++ timed_out_events d (map submit_locator pre) 5
                    ++ [EWaitClickable d (fst (submit_locator sel)) sel 5;
                        EPrint "Found submit button, clicking...";
                        EClick el] |})).
Proof.
  intros Hd. split.
  - intros Hpre Hsel. exact (field_loop_first_match _ _ _ _ Hd Hpre Hsel).
  - intros Hpre Hsel w3 Hclick.
    exact (submit_login_loop_first_match _ _ _ _ Hd Hpre Hsel Hclick).
Qed.

(** C6.  When no candidate resolves within its budget (every poll ends in a
    [TimeoutException]), the search reports absence as a value and raises
    nothing: [wait_for_element] returns [None]; the loop of
    [click_sign_in_with_wizards] runs to its end over any candidate list;
    and the function itself returns [False]. *)
Theorem exhausted_set_is_not_found (s : state) d :
  driver (self s) = Some d ->
  (forall by_ value timeout e w,
     env_wait_clickable env d by_ value timeout (world s) = (Raise e, w) ->
     isinstance e TimeoutException = true ->
     fst (wait_for_element env by_ value timeout s) = Ret None) /\
  (forall selectors w,
     all_time_out env d (map (pair XPATH) selectors) 5 (world s) = Some w ->
     click_sign_in_with_wizards_loop env selectors s =
     (Ret None,
      {| self := self s; world := w;
         log := log s ++ timed_out_events d (map (pair XPATH) selectors) 5 |}))
  /\
  (forall w,
     all_time_out env d (map (pair XPATH) possible_selectors) 5 (world s)
       = Some w ->
     click_sign_in_with_wizards env s =
     (Ret false,
      {| self := self s; world := w;
         log := log s
                ++ timed_out_events d (map (pair XPATH) possible_selectors) 5
                ++ [EPrint "Could not find 'Sign in with Wizards' button"] |})).
Proof.
  intros Hd.
  assert (L : forall selectors w,
     all_time_out env d (map (pair XPATH) selectors) 5 (world s) = Some w ->
     click_sign_in_with_wizards_loop env selectors s =
     (Ret None,
      {| self := self s; world := w;
         log := log s ++ timed_out_events d (map (pair XPATH) selectors) 5 |})).
  { intros selectors w H.
    rewrite <- (app_nil_r selectors) at 1.
    rewrite (click_sign_in_with_wizards_loop_skip _ _ _ Hd H). reflexivity. }
  split; [|split].
  - intros by_ value timeout e w Hw He.
    rewrite (wait_for_element_timeout _ _ _ _ Hd Hw He). reflexivity.
  - exact L.
  - intros w H. unfold click_sign_in_with_wizards.
    rewrite run_try_except, run_bind, (L _ _ H). cbn [print emit].
    rewrite run_bind. cbn. rewrite <- app_assoc. reflexivity.
Qed.

(** C10.  Credential entry is not undone on failure.  When a username
    candidate [sel] resolves to [el] (those before it timing out) and the
    field accepts the input, the identifier is typed into [el] before the
    first password candidate is polled; when every password candidate then
    times out, [enter_credentials] returns [False] and nothing after the
    [send_keys] touches [el] again. *)
Theorem enter_credentials_partial_entry (s : state) d
    (pre post : list string) (sel : string) el w1 w2 w3 w4 w5 :
  driver (self s) = Some d ->
  username_selectors = pre ++ sel :: post ->
  all_time_out env d (map (pair CSS_SELECTOR) pre) 5 (world s) = Some w1 ->
  env_wait_clickable env d CSS_SELECTOR sel 5 w1 = (Ret el, w2) ->
  env_clear env el w2 = (Ret tt, w3) ->
  env_send_keys env el (username (self s)) w3 = (Ret tt, w4) ->
  all_time_out env d (map (pair CSS_SELECTOR) password_selectors) 5 w4
    = Some w5 ->
  enter_credentials env s =
  (Ret false,
   {| self := self s; world := w5;
      log := log s
        ++ timed_out_events d (map (pair CSS_SELECTOR) pre) 5
        ++ [EWaitClickable d CSS_SELECTOR sel 5;
            EClear el;
            ESendKeys el (username (self s));
            EPrint "Entered username"]
        ++ timed_out_events d (map (pair CSS_SELECTOR) password_selectors) 5
        ++ [EPrint "Could not find password field"] |}).
Proof.
  intros Hd Hsels Hpre Hsel Hclear Hkeys Hpwd.
  pose proof (field_loop_first_match _ _ post _ Hd Hpre Hsel) as Hfirst.
  unfold enter_credentials. rewrite Hsels.
  rewrite run_try_except, run_bind, Hfirst.
  rewrite run_bind, run_call. cbn [self world log fst snd]. rewrite Hclear.
  cbn [fst snd]. rewrite run_bind. cbn [get_self self].
  rewrite run_bind, run_call. cbn [self world log fst snd]. rewrite Hkeys.
  cbn [fst snd]. rewrite run_bind. cbn [print emit self world log].
  rewrite run_bind.
  match goal with
  | |- context [field_loop env password_selectors None ?t] =>
      rewrite <- (app_nil_r password_selectors) at 1;
      rewrite (field_loop_skip password_selectors [] t (d := d) (w := w5))
  end; [|exact Hd|exact Hpwd].
  cbn [field_loop ret Monad_M self world log].
  rewrite run_bind. cbn [print emit self world log].
  cbn [ret Monad_M]. rewrite <- !app_assoc. reflexivity.
Qed.

(** ** Classifying the outcome *)

Lemma success_indicators_loop_run (indicators : list string) (url : string)
    (s : state) :
  success_indicators_loop indicators url s =
  if existsb (fun indicator => contains indicator url) indicators
  then (Ret (Some true),
        emit (EPrint ("Login successful! Redirected to: " ++ url)) s)
  else (Ret None, s).
Proof.
  induction indicators as [|indicator rest IH];
    cbn [success_indicators_loop existsb]; [reflexivity|].
  destruct (contains indicator url); [reflexivity | exact IH].
Qed.

Lemma user_elements_loop_none (selectors : list string) (s : state) d w :
  driver (self s) = Some d ->
  none_present env d selectors (world s) = Some w ->
  user_elements_loop env selectors s =
  (Ret None,
   {| self := self s; world := w;
      log := log s ++ map (EFindElement d XPATH) selectors |}).
Proof.
  revert s. induction selectors as [|selector rest IH]; intros s Hd H.
  - cbn in *. injection H as <-. rewrite app_nil_r. destruct s; reflexivity.
  - cbn [none_present] in H. cbn [user_elements_loop].
    destruct (env_find_element env d XPATH selector (world s))
      as [[el|e] w1] eqn:Hf; [discriminate|].
    destruct (isinstance e NoSuchElementException) eqn:He; [|discriminate].
    rewrite run_bind, run_try_except, run_bind, (the_driver_run _ Hd).
    rewrite run_bind, run_call, Hf. cbn [fst snd dispatch]. rewrite He.
    cbn [ret Monad_M]. rewrite IH; [|exact Hd|exact H].
    cbn [self world log map]. rewrite <- app_assoc. reflexivity.
Qed.

(** The head of [check_login_success], up to the printed URL. *)
Lemma check_login_success_run (s : state) d w1 url w2 :
  driver (self s) = Some d ->
  env_sleep env 3 (world s) = (Ret tt, w1) ->
  env_current_url env d w1 = (Ret url, w2) ->
  let t := {| self := self s; world := w2;
              log := log s ++ [ESleep 3; ECurrentUrl d;
                               EPrint ("Current URL: " ++ url)] |} in
  check_login_success env s =
  try_except
    (r <- success_indicators_loop success_indicators url ;;
     match r with
     | Some b => ret b
     | None =>
         r <- user_elements_loop env user_elements ;;
         match r with
         | Some b => ret b
         | None =>
             if contains "sign-in" url || contains "login" url
             then
               print "Still on login page, login may have failed" ;;
               ret false
             else
               print "Login status unclear" ;;
               ret false
         end
     end)
    [(Exception, fun e =>
        print ("Error checking login success: " ++ str e) ;; ret false)] t.
Proof.
  intros Hd Hs Hu. cbn zeta. unfold check_login_success.
  rewrite !run_try_except, run_bind. unfold sleep. rewrite run_call, Hs.
  cbn [fst snd]. rewrite run_bind.
  match goal with
  | |- context [the_driver _ ?t] => rewrite (the_driver_run t Hd)
  end.
  rewrite run_bind, run_call. cbn [self world log]. rewrite Hu.
  cbn [fst snd]. rewrite run_bind. cbn [print emit self world log].
  rewrite <- !app_assoc. reflexivity.
Qed.

(** C8.  When the URL read after submission contains a success marker,
    [check_login_success] returns [True] straight from the URL test: no
    [find_element] call is issued, so the outcome does not depend on what
    the page contains. *)
Theorem url_marker_short_circuits (s : state) d w1 url w2 :
  driver (self s) = Some d ->
  env_sleep env 3 (world s) = (Ret tt, w1) ->
  env_current_url env d w1 = (Ret url, w2) ->
  has_success_marker url = true ->
  check_login_success env s =
  (Ret true,
   {| self := self s; world := w2;
      log := log s ++ [ESleep 3; ECurrentUrl d;
                       EPrint ("Current URL: " ++ url);
                       EPrint ("Login successful! Redirected to: " ++ url)] |})
  /\ count is_find_element (log (snd (check_login_success env s))) =
     count is_find_element (log s).
Proof.
  intros Hd Hs Hu Hm.
  assert (E : check_login_success env s =
    (Ret true,
     {| self := self s; world := w2;
        log := log s ++ [ESleep 3; ECurrentUrl d;
                         EPrint ("Current URL: " ++ url);
                         EPrint ("Login successful! Redirected to: " ++ url)] |})).
  { rewrite (check_login_success_run _ Hd Hs Hu).
    rewrite run_try_except, run_bind, success_indicators_loop_run.
    unfold has_success_marker in Hm. rewrite Hm. cbn.
    rewrite <- app_assoc. reflexivity. }
  split; [exact E|]. rewrite E. cbn [snd log]. unfold count.
  rewrite filter_app. cbn. rewrite app_nil_r. reflexivity.
Qed.

(** The sign-in test, where the code reaches it.  When the URL read after
    submission contains ["sign-in"], contains none of the success markers,
    and none of the user-element selectors finds anything,
    [check_login_success] reports the page as still the login page and
    returns [False]. *)
Theorem sign_in_url_without_marker_is_failure (s : state) d w1 url w2 w3 :
  driver (self s) = Some d ->
  env_sleep env 3 (world s) = (Ret tt, w1) ->
  env_current_url env d w1 = (Ret url, w2) ->
  has_success_marker url = false ->
  none_present env d user_elements w2 = Some w3 ->
  contains "sign-in" url = true ->
  check_login_success env s =
  (Ret false,
   {| self := self s; world := w3;
      log := log s ++ [ESleep 3; ECurrentUrl d;
                       EPrint ("Current URL: " ++ url)]
                   ++ map (EFindElement d XPATH) user_elements
                   ++ [EPrint "Still on login page, login may have failed"] |}).
Proof.
  intros Hd Hs Hu Hm Hn Hc.
  rewrite (check_login_success_run _ Hd Hs Hu).
  rewrite run_try_except, run_bind, success_indicators_loop_run.
  unfold has_success_marker in Hm. rewrite Hm.
  rewrite run_bind.
  match goal with
  | |- context [user_elements_loop env user_elements ?t] =>
      rewrite (user_elements_loop_none user_elements t (d := d) (w := w3))
  end; [|exact Hd|exact Hn].
  rewrite Hc. cbn [orb print emit self world log].
  rewrite run_bind. cbn [print emit self world log ret Monad_M].
  rewrite <- !app_assoc. reflexivity.
Qed.

(** C3, as the code has it.  When the URL contains neither a success marker
    nor ["sign-in"] and no user-element selector finds anything,
    [check_login_success] returns [False], the very value it returns for a
    failed login; only the line it prints tells the cases apart. *)
Theorem unclear_state_returns_false (s : state) d w1 url w2 w3 :
  driver (self s) = Some d ->
  env_sleep env 3 (world s) = (Ret tt, w1) ->
  env_current_url env d w1 = (Ret url, w2) ->
  has_success_marker url = false ->
  none_present env d user_elements w2 = Some w3 ->
  contains "sign-in" url = false ->
  check_login_success env s =
  (Ret false,
   {| self := self s; world := w3;
      log := log s ++ [ESleep 3; ECurrentUrl d;
                       EPrint ("Current URL: " ++ url)]
                   ++ map (EFindElement d XPATH) user_elements
                   ++ [EPrint (if contains "login" url
                               then "Still on login page, login may have failed"
                               else "Login status unclear")] |}).
Proof.
  intros Hd Hs Hu Hm Hn Hc.
  rewrite (check_login_success_run _ Hd Hs Hu).
  rewrite run_try_except, run_bind, success_indicators_loop_run.
  unfold has_success_marker in Hm. rewrite Hm.
  rewrite run_bind.
  match goal with
  | |- context [user_elements_loop env user_elements ?t] =>
      rewrite (user_elements_loop_none user_elements t (d := d) (w := w3))
  end; [|exact Hd|exact Hn].
  rewrite Hc. cbn [orb].
  destruct (contains "login" url);
    rewrite run_bind; cbn [print emit self world log ret Monad_M];
    rewrite <- !app_assoc; reflexivity.
Qed.

(** ** Bootstrap and the property override *)

(** C4, as the code has it.  The [navigator.webdriver] override is one more
    step of the [try] block of [setup_driver]: when the browser has started
    and the override raises, the exception is caught and printed and
    [setup_driver] returns [False]; the started session stays in
    [self.driver]. *)
Theorem override_failure_fails_bootstrap (s : state) service w1 d w2 e w3 :
  env_install env (world s) = (Ret service, w1) ->
  env_Edge env service (edge_options (headless (self s))) w1 = (Ret d, w2) ->
  env_execute_script env d webdriver_override w2 = (Raise e, w3) ->
  isinstance e Exception = true ->
  setup_driver env s =
  (Ret false,
   {| self := set_driver (self s) d; world := w3;
      log := log s ++
        [EPrint "Setting up Edge WebDriver...";
         EPrint "Downloading/updating Edge WebDriver...";
         EInstall;
         EPrint "Starting Edge browser...";
         EEdge service (edge_options (headless (self s)));
         EExecuteScript d webdriver_override;
         EPrint ((if isinstance e WebDriverException
                  then "✗ WebDriver error: "
                  else "✗ Error setting up driver: ") ++ str e)] |}).
Proof.
  intros Hi He Hx Hexn.
  unfold setup_driver, try_except, call, print, assign_driver. cbn.
  rewrite Hi. cbn. rewrite He. cbn. rewrite Hx. cbn.
  destruct (isinstance e WebDriverException); [|rewrite Hexn]; cbn;
    rewrite <- !app_assoc; reflexivity.
Qed.

(** ** Beyond the claims: how [main] ends *)


(** X3.  [main] calls [close] unguarded in its [finally]: when a session is
    stored and [quit] raises, that exception comes out of [main] whatever
    the attempt's own outcome was, a successful login included. *)
Theorem main_quit_failure_propagates (user pass : string) (s : state)
    (e0 : exn) :
  (forall d w, fst (env_quit env d w) = Raise e0) ->
  driver (self (snd (main env user pass s))) <> None ->
  fst (main env user pass s) = Raise e0.
Proof.
  intros Hq. unfold main. rewrite run_bind. cbn [construct].
  unfold try_finally.
  match goal with
  | |- context [try_except ?b ?hs ?t] =>
      destruct (try_except b hs t) as [o s1]
  end.
  unfold close. rewrite run_bind. cbn [get_self].
  destruct (driver (self s1)) as [d|] eqn:Ed.
  - rewrite run_call, Hq. reflexivity.
  - cbn. rewrite Ed. congruence.
Qed.

(** X4.  [close] leaves [self.driver] as it is: without a session it does
    nothing at all, and with one a second [close] calls [quit] on the same
    session again. *)
Theorem close_is_not_idempotent (s : state) :
  (driver (self s) = None -> close env s = (Ret tt, s)) /\
  (forall d w1 o w2,
     driver (self s) = Some d ->
     env_quit env d (world s) = (Ret tt, w1) ->
     env_quit env d w1 = (o, w2) ->
     (close env ;; close env) s =
     (o, {| self := self s; world := w2;
            log := log s ++ [EQuit d; EQuit d] |})).
Proof.
  split.
  - intros H. unfold close. rewrite run_bind. cbn [get_self]. rewrite H.
    reflexivity.
  - intros d w1 o w2 Hd H1 H2. rewrite run_bind.
    unfold close at 1. rewrite run_bind. cbn [get_self]. rewrite Hd.
    rewrite run_call, H1. cbn [fst snd].
    unfold close. rewrite run_bind. cbn [get_self self]. rewrite Hd.
    rewrite run_call. cbn [world log self]. rewrite H2. cbn [fst snd].
    rewrite <- app_assoc. reflexivity.
Qed.

(** ** Beyond the claims: bootstrap *)

Lemma setup_driver_success (s : state) service w1 d w2 w3 w4 w5 :
  env_install env (world s) = (Ret service, w1) ->
  env_Edge env service (edge_options (headless (self s))) w1 = (Ret d, w2) ->
  env_execute_script env d webdriver_override w2 = (Ret tt, w3) ->
  env_implicitly_wait env d 10 w3 = (Ret tt, w4) ->
  env_set_page_load_timeout env d 30 w4 = (Ret tt, w5) ->
  setup_driver env s =
  (Ret true,
   {| self := set_driver (self s) d; world := w5;
      log := log s ++
        [EPrint "Setting up Edge WebDriver...";
         EPrint "Downloading/updating Edge WebDriver...";
         EInstall;
         EPrint "Starting Edge browser...";
         EEdge service (edge_options (headless (self s)));
         EExecuteScript d webdriver_override;
         EImplicitlyWait d 10;
         ESetPageLoadTimeout d 30;
         EPrint "✓ Edge WebDriver setup complete"] |}).
Proof.
  intros H1 H2 H3 H4 H5.
  unfold setup_driver, try_except, call, print, assign_driver. cbn.
  rewrite H1. cbn. rewrite H2. cbn. rewrite H3. cbn. rewrite H4. cbn.
  rewrite H5. cbn. rewrite <- !app_assoc. reflexivity.
Qed.

(** X5.  [setup_driver] returns [True] exactly when the driver download,
    the browser start, the property override and the two timeout settings
    all return; the session the browser start gave is then the one stored
    in [self.driver]. *)
Theorem setup_driver_true_iff (s : state) :
  fst (setup_driver env s) = Ret true <->
  exists service w1 d w2 w3 w4 w5,
    env_install env (world s) = (Ret service, w1) /\
    env_Edge env service (edge_options (headless (self s))) w1 = (Ret d, w2) /\
    env_execute_script env d webdriver_override w2 = (Ret tt, w3) /\
    env_implicitly_wait env d 10 w3 = (Ret tt, w4) /\
    env_set_page_load_timeout env d 30 w4 = (Ret tt, w5) /\
    driver (self (snd (setup_driver env s))) = Some d.
Proof.
  split.
  - intros H. destruct (setup_driver env s) as [o s'] eqn:E. cbn in H.
    subst o.
    destruct (setup_driver_true_inv _ E)
      as (service & w1 & d & w2 & w3 & w4 & H1 & H2 & H3 & H4 & H5 & H6 & _).
    exists service, w1, d, w2, w3, w4, (world s'). cbn [snd]. auto 10.
  - intros (service & w1 & d & w2 & w3 & w4 & w5 & H1 & H2 & H3 & H4 & H5 & _).
    rewrite (setup_driver_success _ H1 H2 H3 H4 H5). reflexivity.
Qed.

(** X6.  When the driver download or the browser start fails with an
    [Exception], [setup_driver] returns [False] and the object is left as it
    was: no session is stored, so a later [close] has nothing to quit. *)
Theorem setup_driver_start_failure (s : state) :
  (forall e w1,
     env_install env (world s) = (Raise e, w1) ->
     isinstance e Exception = true ->
     fst (setup_driver env s) = Ret false /\
     self (snd (setup_driver env s)) = self s) /\
  (forall service w1 e w2,
     env_install env (world s) = (Ret service, w1) ->
     env_Edge env service (edge_options (headless (self s))) w1
       = (Raise e, w2) ->
     isinstance e Exception = true ->
     fst (setup_driver env s) = Ret false /\
     self (snd (setup_driver env s)) = self s).
Proof.
  split.
  - intros e w1 H1 He.
    unfold setup_driver, try_except, call, print, assign_driver. cbn.
    rewrite H1. cbn.
    destruct (isinstance e WebDriverException); [|rewrite He]; cbn; auto.
  - intros service w1 e w2 H1 H2 He.
    unfold setup_driver, try_except, call, print, assign_driver. cbn.
    rewrite H1. cbn. rewrite H2. cbn.
    destruct (isinstance e WebDriverException); [|rewrite He]; cbn; auto.
Qed.

(** X7.  [setup_driver] never quits: whatever [self.driver] held before, a
    successful bootstrap overwrites it with the new session without a
    [quit], so a session stored earlier is left running, out of reach of
    [close], which from then on quits the new one. *)
Theorem setup_driver_replaces_session (s : state) service w1 d w2 w3 w4 w5 :
  env_install env (world s) = (Ret service, w1) ->
  env_Edge env service (edge_options (headless (self s))) w1 = (Ret d, w2) ->
  env_execute_script env d webdriver_override w2 = (Ret tt, w3) ->
  env_implicitly_wait env d 10 w3 = (Ret tt, w4) ->
  env_set_page_load_timeout env d 30 w4 = (Ret tt, w5) ->
  let s' := snd (setup_driver env s) in
  driver (self s') = Some d /\
  count is_quit (log s') = count is_quit (log s) /\
  log (snd (close env s')) = log s' ++ [EQuit d].
Proof.
  intros H1 H2 H3 H4 H5. cbn zeta.
  rewrite (setup_driver_success _ H1 H2 H3 H4 H5). cbn [snd self log driver
    set_driver].
  split; [reflexivity|]. split.
  - unfold count. rewrite filter_app. cbn. rewrite app_nil_r. reflexivity.
  - destruct (close_run {| self := set_driver (self s) d; world := w5;
        log := log s ++
        [EPrint "Setting up Edge WebDriver...";
         EPrint "Downloading/updating Edge WebDriver...";
         EInstall;
         EPrint "Starting Edge browser...";
         EEdge service (edge_options (headless (self s)));
         EExecuteScript d webdriver_override;
         EImplicitlyWait d 10;
         ESetPageLoadTimeout d 30;
         EPrint "✓ Edge WebDriver setup complete"] |}) as [_ C].
    rewrite C. reflexivity.
Qed.

(** ** Beyond the claims: the candidate loops *)

Lemma wait_for_element_error (s : state) d by_ value timeout e w :
  driver (self s) = Some d ->
  env_wait_clickable env d by_ value timeout (world s) = (Raise e, w) ->
  isinstance e TimeoutException = false ->
  wait_for_element env by_ value timeout s =
  (Raise e,
   {| self := self s; world := w;
      log := log s ++ [EWaitClickable d by_ value timeout] |}).
Proof.
  intros Hd Hw He. unfold wait_for_element.
  rewrite run_try_except, run_bind, (the_driver_run _ Hd), run_bind, run_call.
  rewrite Hw. cbn [fst snd dispatch]. rewrite He. reflexivity.
Qed.

(** X8.  In [submit_login] a candidate that fails is passed over, not
    fatal: when polling it raises an [Exception] other than a timeout, or
    when it resolves and the click on it raises an [Exception], the loop
    goes on with the next candidate.  A page can thus receive a click on a
    later candidate after a failed click on an earlier one. *)
Theorem submit_login_skips_failed_candidate (s : state) d
    (sel : string) (rest : list string) :
  driver (self s) = Some d ->
  (forall e w,
     env_wait_clickable env d (fst (submit_locator sel)) sel 5 (world s)
       = (Raise e, w) ->
     isinstance e TimeoutException = false ->
     isinstance e Exception = true ->
     submit_login_loop env (sel :: rest) s =
     submit_login_loop env rest
       {| self := self s; world := w;
          log := log s ++
            [EWaitClickable d (fst (submit_locator sel)) sel 5] |}) /\
  (forall el w1 e w2,
     env_wait_clickable env d (fst (submit_locator sel)) sel 5 (world s)
       = (Ret el, w1) ->
     env_click env el w1 = (Raise e, w2) ->
     isinstance e Exception = true ->
     submit_login_loop env (sel :: rest) s =
     submit_login_loop env rest
       {| self := self s; world := w2;
          log := log s ++
            [EWaitClickable d (fst (submit_locator sel)) sel 5;
             EPrint "Found submit button, clicking...";
             EClick el] |}).
Proof.
  intros Hd. split.
  - intros e w Hw Ht He. cbn [submit_login_loop].
    rewrite run_bind, run_try_except, run_bind.
    assert (Hwait :
      (if prefix "//" sel
       then wait_for_element env XPATH sel 5
       else wait_for_element env CSS_SELECTOR sel 5) s =
      (Raise e,
       {| self := self s; world := w;
          log := log s ++
            [EWaitClickable d (fst (submit_locator sel)) sel 5] |})).
    { unfold submit_locator in *. cbn [fst] in *.
      destruct (prefix "//" sel);
        apply (wait_for_element_error _ _ _ _ Hd Hw Ht). }
    rewrite Hwait. cbn [dispatch]. rewrite He. reflexivity.
  - intros el w1 e w2 Hw Hc He. cbn [submit_login_loop].
    rewrite run_bind, run_try_except, run_bind.
    assert (Hwait :
      (if prefix "//" sel
       then wait_for_element env XPATH sel 5
       else wait_for_element env CSS_SELECTOR sel 5) s =
      (Ret (Some el),
       {| self := self s; world := w1;
          log := log s ++
            [EWaitClickable d (fst (submit_locator sel)) sel 5] |})).
    { unfold submit_locator in *. cbn [fst] in *.
      destruct (prefix "//" sel);
        apply (wait_for_element_found _ _ _ _ Hd Hw). }
    rewrite Hwait. rewrite run_bind. cbn [print emit self world log].
    rewrite run_bind, run_call. cbn [self world log]. rewrite Hc.
    cbn [fst snd dispatch]. rewrite He. cbn [ret Monad_M].
    rewrite <- !app_assoc. reflexivity.
Qed.

(** X9.  [enter_credentials] has no such tolerance: its loops guard against
    timeouts only.  When the candidates before [sel] time out and polling
    [sel] raises any other [Exception], the function stops there, prints
    the error and returns [False]; the candidates after [sel] are never
    tried. *)
Theorem enter_credentials_error_stops_search (s : state) d
    (pre post : list string) (sel : string) e w1 w2 :
  driver (self s) = Some d ->
  username_selectors = pre ++ sel :: post ->
  all_time_out env d (map (pair CSS_SELECTOR) pre) 5 (world s) = Some w1 ->
  env_wait_clickable env d CSS_SELECTOR sel 5 w1 = (Raise e, w2) ->
  isinstance e TimeoutException = false ->
  isinstance e Exception = true ->
  enter_credentials env s =
  (Ret false,
   {| self := self s; world := w2;
      log := log s
        ++ timed_out_events d (map (pair CSS_SELECTOR) pre) 5
        ++ [EWaitClickable d CSS_SELECTOR sel 5;
            EPrint ("Error entering credentials: " ++ str e)] |}).
Proof.
  intros Hd Hsels Hpre Hsel Ht He.
  unfold enter_credentials. rewrite Hsels.
  rewrite run_try_except, run_bind, (field_loop_skip _ _ _ Hd Hpre).
  cbn [field_loop]. rewrite run_bind.
  match goal with
  | |- context [wait_for_element env _ _ _ ?t] =>
      rewrite (wait_for_element_error t _ _ _ Hd Hsel Ht)
  end.
  cbn [dispatch]. rewrite He. cbn. rewrite <- !app_assoc. reflexivity.
Qed.

(** ** Beyond the claims: the classifier *)

Lemma user_elements_loop_skip (pre rest : list string) (s : state) d w :
  driver (self s) = Some d ->
  none_present env d pre (world s) = Some w ->
  user_elements_loop env (pre ++ rest) s =
  user_elements_loop env rest
    {| self := self s; world := w;
       log := log s ++ map (EFindElement d XPATH) pre |}.
Proof.
  revert s. induction pre as [|selector pre IH]; intros s Hd H.
  - cbn in *. injection H as <-. rewrite app_nil_r. destruct s; reflexivity.
  - cbn [none_present] in H. cbn [app user_elements_loop].
    destruct (env_find_element env d XPATH selector (world s))
      as [[el|e] w1] eqn:Hf; [discriminate|].
    destruct (isinstance e NoSuchElementException) eqn:He; [|discriminate].
    rewrite run_bind, run_try_except, run_bind, (the_driver_run _ Hd).
    rewrite run_bind, run_call, Hf. cbn [fst snd dispatch]. rewrite He.
    cbn [ret Monad_M]. rewrite IH; [|exact Hd|exact H].
    cbn [self world log map]. rewrite <- app_assoc. reflexivity.
Qed.

(** X10.  A user element on the page outranks the sign-in test: when the
    URL has no success marker and one of the user-element selectors finds
    an element (those before it finding none), [check_login_success]
    returns [True] whatever the URL is, a sign-in URL included, and the
    selectors after it are not looked up. *)
Theorem user_element_means_success (s : state) d w1 url w2
    (pre post : list string) (sel : string) w3 el w4 :
  driver (self s) = Some d ->
  env_sleep env 3 (world s) = (Ret tt, w1) ->
  env_current_url env d w1 = (Ret url, w2) ->
  has_success_marker url = false ->
  user_elements = pre ++ sel :: post ->
  none_present env d pre w2 = Some w3 ->
  env_find_element env d XPATH sel w3 = (Ret el, w4) ->
  check_login_success env s =
  (Ret true,
   {| self := self s; world := w4;
      log := log s ++ [ESleep 3; ECurrentUrl d;
                       EPrint ("Current URL: " ++ url)]
                   ++ map (EFindElement d XPATH) pre
                   ++ [EFindElement d XPATH sel;
                       EPrint "Found user element, login appears successful"] |}).
Proof.
  intros Hd Hs Hu Hm Hsels Hn Hf.
  rewrite (check_login_success_run _ Hd Hs Hu).
  rewrite run_try_except, run_bind, success_indicators_loop_run.
  unfold has_success_marker in Hm. rewrite Hm.
  rewrite run_bind, Hsels.
  match goal with
  | |- context [user_elements_loop env (pre ++ sel :: post) ?t] =>
      rewrite (user_elements_loop_skip pre (sel :: post) t (d := d) (w := w3))
  end; [|exact Hd|exact Hn].
  cbn [user_elements_loop].
  rewrite run_bind, run_try_except, run_bind.
  match goal with
  | |- context [the_driver _ ?t] => rewrite (the_driver_run t Hd)
  end.
  rewrite run_bind, run_call. cbn [self world log]. rewrite Hf.
  cbn [fst snd]. rewrite run_bind. cbn [print emit self world log].
  cbn [ret Monad_M]. rewrite <- !app_assoc. reflexivity.
Qed.

(** X11.  A classifier that cannot look is a classifier that says no: when
    reading the URL raises an [Exception], or a user-element lookup raises
    an [Exception] other than [NoSuchElementException],
    [check_login_success] prints the error and returns [False], without
    looking any further. *)
Theorem check_login_success_error_is_false (s : state) d w1 :
  driver (self s) = Some d ->
  env_sleep env 3 (world s) = (Ret tt, w1) ->
  (forall e w2,
     env_current_url env d w1 = (Raise e, w2) ->
     isinstance e Exception = true ->
     check_login_success env s =
     (Ret false,
      {| self := self s; world := w2;
         log := log s ++
           [ESleep 3; ECurrentUrl d;
            EPrint ("Error checking login success: " ++ str e)] |})) /\
  (forall url w2 pre sel post w3 e w4,
     env_current_url env d w1 = (Ret url, w2) ->
     has_success_marker url = false ->
     user_elements = pre ++ sel :: post ->
     none_present env d pre w2 = Some w3 ->
     env_find_element env d XPATH sel w3 = (Raise e, w4) ->
     isinstance e NoSuchElementException = false ->
     isinstance e Exception = true ->
     check_login_success env s =
     (Ret false,
      {| self := self s; world := w4;
         log := log s ++ [ESleep 3; ECurrentUrl d;
                          EPrint ("Current URL: " ++ url)]
                      ++ map (EFindElement d XPATH) pre
                      ++ [EFindElement d XPATH sel;
                          EPrint ("Error checking login success: "
                                  ++ str e)] |})).
Proof.
  intros Hd Hs. split.
  - intros e w2 Hu He. unfold check_login_success.
    rewrite run_try_except, run_bind. unfold sleep. rewrite run_call, Hs.
    cbn [fst snd]. rewrite run_bind.
    match goal with
    | |- context [the_driver _ ?t] => rewrite (the_driver_run t Hd)
    end.
    rewrite run_bind, run_call. cbn [self world log]. rewrite Hu.
    cbn [fst snd dispatch]. rewrite He. cbn.
    rewrite <- !app_assoc. reflexivity.
  - intros url w2 pre sel post w3 e w4 Hu Hm Hsels Hn Hf Hne He.
    rewrite (check_login_success_run _ Hd Hs Hu).
    rewrite run_try_except, run_bind, success_indicators_loop_run.
    unfold has_success_marker in Hm. rewrite Hm.
    rewrite run_bind, Hsels.
    match goal with
    | |- context [user_elements_loop env (pre ++ sel :: post) ?t] =>
        rewrite (user_elements_loop_skip pre (sel :: post) t
                   (d := d) (w := w3))
    end; [|exact Hd|exact Hn].
    cbn [user_elements_loop].
    rewrite run_bind, run_try_except, run_bind.
    match goal with
    | |- context [the_driver _ ?t] => rewrite (the_driver_run t Hd)
    end.
    rewrite run_bind, run_call. cbn [self world log]. rewrite Hf.
    cbn [fst snd dispatch]. rewrite Hne. cbn [dispatch raise Exc_M].
    rewrite He. cbn.
    rewrite <- !app_assoc. reflexivity.
Qed.

(** ** Beyond the claims: what a [True] from [authenticate] means *)

(** One step of a run that is known to end in [Ret true]: the call at the
    head returned, or the run would have ended otherwise. *)
Ltac step_in H a t E :=
  rewrite run_bind in H;
  match type of H with
  | match ?m ?s0 with _ => _ end = _ =>
      destruct (m s0) as [[a|?e] t] eqn:E; [|discriminate H]
  end.

(** The navigation step yields [None] (go on) or [Some false]. *)
Lemma navigation_result (url : string) (s t : state) (b : bool) :
  try_except
    (d <- the_driver "get" ;;
     call (EGet d url) (env_get env d url) ;;
     print "✓ Successfully loaded login page" ;;
     ret None)
    [(WebDriverException, fun e =>
        print ("✗ Failed to load login page: " ++ str e) ;;
        ret (Some false))] s = (Ret (Some b), t) ->
  b = false.
Proof.
  unfold try_except, the_driver, call, print. cbn.
  destruct (driver (self s)) as [d|]; cbn.
  - destruct (env_get env d url (world s)) as [[[]|e] w]; cbn;
      [discriminate|].
    destruct (isinstance e WebDriverException); cbn; [|discriminate].
    intros H. injection H as <- _. reflexivity.
  - discriminate.
Qed.

(** X13.  [authenticate] returns [True] on one path only: both checks
    passed, bootstrap succeeded, navigation and the form steps succeeded
    and [check_login_success] said yes.  A [True] therefore comes with a
    session stored in [self.driver], which [get_driver] hands out, and
    with the success line as the last thing printed. *)
Theorem authenticate_true_inv (s s' : state) :
  authenticate env s = (Ret true, s') ->
  (exists d, fst (get_driver s') = Ret (Some d)) /\
  exists l, log s' = l ++ [EPrint "✅ Authentication successful!"].
Proof.
  intros H. unfold authenticate in H. rewrite run_try_except in H.
  match type of H with
  | match ?m ?s0 with _ => _ end = _ =>
      destruct (m s0) as [[b|e] s1] eqn:B
  end.
  2: { cbn [dispatch] in H.
       destruct (isinstance e WebDriverException); cbn in H;
         [discriminate|].
       destruct (isinstance e Exception); cbn in H; discriminate. }
  injection H as -> ->.
  rewrite run_bind in B. cbn [print emit] in B.
  rewrite run_bind in B. cbn [print emit] in B.
  step_in B ok1 t1 E1. destruct ok1; cbn [negb] in B;
    [|cbn in B; discriminate].
  step_in B ok2 t2 E2. destruct ok2; cbn [negb] in B;
    [|cbn in B; discriminate].
  step_in B ok3 t3 E3. destruct ok3; cbn [negb] in B;
    [|cbn in B; discriminate].
  destruct (setup_driver_true_inv _ E3)
    as (_ & _ & d & _ & _ & _ & _ & _ & _ & _ & _ & Hd & _).
  assert (Hframe : attempt_frame t3 s').
  { pose proof click_sign_in_with_wizards_attempt_frame.
    pose proof enter_credentials_attempt_frame.
    pose proof submit_login_attempt_frame.
    pose proof check_login_success_attempt_frame.
    match type of B with
    | ?k t3 = _ =>
        assert (K : keeps attempt_frame k) by keeps_auto;
        specialize (K t3); rewrite B in K; exact K
    end. }
  destruct Hframe as [_ [Hkept _]].
  split.
  - unfold get_driver. rewrite run_bind. cbn.
    destruct (driver (self s')) as [d'|]; [eauto|].
    exfalso. apply Hkept; [congruence | reflexivity].
  - rewrite run_bind in B. cbn [get_self] in B.
    rewrite run_bind in B. cbn [print emit] in B.
    step_in B r t4 E4. destruct r as [b|].
    { cbn in B. injection B as -> _.
      apply navigation_result in E4. discriminate. }
    step_in B u5 t5 E5. step_in B u6 t6 E6.
    step_in B ok7 t7 E7. step_in B u8 t8 E8. step_in B u9 t9 E9.
    step_in B ok10 t10 E10. destruct ok10; cbn [negb] in B;
      [|cbn in B; discriminate].
    step_in B ok11 t11 E11. destruct ok11; cbn [negb] in B;
      [|cbn in B; discriminate].
    step_in B ok12 t12 E12. destruct ok12; cbn in B; [|discriminate].
    injection B as <-. cbn [log]. eauto.
Qed.


(** ** Beyond the claims: methods called before [setup_driver] *)

Lemma wait_for_element_no_session (s : state) by_ value timeout :
  driver (self s) = None ->
  exists e, wait_for_element env by_ value timeout s = (Raise e, s) /\
            cls e = AttributeError.
Proof.
  intros H. unfold wait_for_element, try_except, the_driver. cbn.
  rewrite H. cbn. eexists; split; reflexivity.
Qed.

(** X15.  The form steps can be called on an object that has no session
    yet; they then fail softly, without a single call to the browser.
    [click_sign_in_with_wizards] and [submit_login] run through all their
    candidates, each one ending in an [AttributeError] that the loop
    swallows, and report the control as not found; [enter_credentials]
    stops at its first candidate and returns [False]. *)
Theorem form_steps_without_session (s : state) :
  driver (self s) = None ->
  click_sign_in_with_wizards env s =
    (Ret false,
     emit (EPrint "Could not find 'Sign in with Wizards' button") s) /\
  submit_login env s =
    (Ret false, emit (EPrint "Could not find submit button") s) /\
  fst (enter_credentials env s) = Ret false /\
  world (snd (enter_credentials env s)) = world s /\
  exists line, log (snd (enter_credentials env s)) = log s ++ [EPrint line].
Proof.
  intros H.
  assert (LC : forall l,
             click_sign_in_with_wizards_loop env l s = (Ret None, s)).
  { induction l as [|selector rest IH];
      cbn [click_sign_in_with_wizards_loop]; [reflexivity|].
    rewrite run_bind, run_try_except, run_bind.
    destruct (wait_for_element_no_session s XPATH selector 5 H)
      as (e & -> & He).
    cbn [dispatch]. unfold isinstance. rewrite He. cbn. exact IH. }
  assert (LS : forall l, submit_login_loop env l s = (Ret None, s)).
  { induction l as [|selector rest IH]; cbn [submit_login_loop];
      [reflexivity|].
    rewrite run_bind, run_try_except, run_bind.
    assert (E : exists e,
      (if prefix "//" selector
       then wait_for_element env XPATH selector 5
       else wait_for_element env CSS_SELECTOR selector 5) s = (Raise e, s)
      /\ cls e = AttributeError)
      by (destruct (prefix "//" selector);
          apply wait_for_element_no_session; exact H).
    destruct E as (e & -> & He).
    cbn [dispatch]. unfold isinstance. rewrite He. cbn. exact IH. }
  split; [|split].
  - unfold click_sign_in_with_wizards.
    rewrite run_try_except, run_bind, LC. reflexivity.
  - unfold submit_login. rewrite run_try_except, run_bind, LS. reflexivity.
  - unfold enter_credentials. rewrite run_try_except, run_bind.
    unfold username_selectors. cbn [field_loop]. rewrite run_bind.
    destruct (wait_for_element_no_session s CSS_SELECTOR
                "input[name='username']" 5 H) as (e & -> & He).
    cbn [dispatch]. unfold isinstance. rewrite He. cbn. eauto.
Qed.

End Proofs.

(** * Concrete runs *)

(** A session is created, the password field is missing, the attempt fails:
    [quit] is called once, last. *)
Lemma main_releases_session_once_witness :
  existsb is_bootstrap_done
    (log (snd (main scripted "user@example.com" "secret"
                 (fresh no_password_field)))) = true /\
  released_once (fresh no_password_field)
    (snd (main scripted "user@example.com" "secret"
            (fresh no_password_field))).
Proof.
  assert (H : existsb is_bootstrap_done
                (log (snd (main scripted "user@example.com" "secret"
                             (fresh no_password_field)))) = true)
    by (vm_compute; reflexivity).
  split; [exact H|].
  pose proof (main_releases_session_once scripted "user@example.com"
                "secret" (fresh no_password_field)) as T.
  cbv zeta in T. destruct T as [T _].
  apply T; [reflexivity | exact H].
Defined.

(** Name resolution fails, the console takes every line: both checks
    answer [False]. *)
Lemma connectivity_checks_never_raise_witness :
  accepts_all (@plain_console scenario) /\
  network_outcome (sc_google dns_down) = true /\
  network_outcome (sc_dndbeyond dns_down) = true /\
  (exists b,
     fst (check_internet_connection_on scripted plain_console
            (fresh dns_down)) = Ret b /\ b = false) /\
  (exists b,
     fst (check_dndbeyond_accessibility_on scripted plain_console
            (fresh dns_down)) = Ret b /\ b = false).
Proof.
  assert (A : accepts_all (@plain_console scenario))
    by (intros line w; reflexivity).
  destruct (@connectivity_checks_never_raise _ scripted plain_console
              (fresh dns_down) A eq_refl eq_refl)
    as [(b1 & E1 & _ & F1) (b2 & E2 & _ & F2)].
  split; [exact A|]. split; [reflexivity|]. split; [reflexivity|]. split.
  - exists b1. split; [exact E1|]. eapply F1. reflexivity.
  - exists b2. split; [exact E2|]. eapply F2. reflexivity.
Defined.

(** The same failure on a console that takes ASCII only: the handler's own
    line is refused and the check ends with a [UnicodeEncodeError]. *)
Lemma check_internet_connection_on_ascii_console :
  fst (check_internet_connection_on scripted ascii_console (fresh dns_down))
    = Raise charmap_error /\
  isinstance charmap_error Exception = true.
Proof. split; reflexivity. Qed.

(** With name resolution down the attempt stops at the first check; with
    the target host down, at the second.  No browser is started. *)
Lemma authenticate_network_unreachable_witness :
  (fst (check_internet_connection scripted (fresh dns_down)) = Ret false /\
   exists s' l,
     authenticate scripted (fresh dns_down) = (Ret false, s') /\
     no_bootstrap (fresh dns_down) s' /\
     log s' = l ++ [EPrint "❌ No internet connection available"]) /\
  (fst (check_dndbeyond_accessibility scripted
          (snd (check_internet_connection scripted (fresh target_down))))
     = Ret false /\
   exists s' l,
     authenticate scripted (fresh target_down) = (Ret false, s') /\
     no_bootstrap (fresh target_down) s' /\
     log s' = l ++ [EPrint "❌ D&D Beyond is not accessible"]).
Proof.
  split; (split; [reflexivity|]).
  - apply (proj1 (authenticate_network_unreachable scripted (fresh dns_down))).
    reflexivity.
  - apply (proj2 (authenticate_network_unreachable scripted
                    (fresh target_down))); reflexivity.
Defined.

(** The first username selector times out, the second matches element 1;
    the two attribute selectors for the submit button time out, the first
    text selector matches element 3. *)
Lemma first_matching_candidate_wins_witness :
  let s := with_session 7%nat no_password_field in
  fst (field_loop scripted username_selectors None s) = Ret (Some 1%nat) /\
  fst (submit_login_loop scripted submit_selectors s) = Ret (Some true).
Proof.
  cbn zeta. split.
  - refine (f_equal fst (proj1 (@first_matching_candidate_wins _ scripted
               (with_session 7%nat no_password_field) 7%nat
               ["input[name='username']"]
               ["input[type='email']"; "input[id*='username']";
                "input[id*='email']"]
               "input[name='email']"
               1%nat no_password_field no_password_field eq_refl)
             eq_refl eq_refl)).
  - refine (f_equal fst (proj2 (@first_matching_candidate_wins _ scripted
               (with_session 7%nat no_password_field) 7%nat
               ["button[type='submit']"; "input[type='submit']"]
               ["//button[contains(text(), 'Login')]";
                "//button[contains(text(), 'Log In')]";
                "//input[contains(@value, 'Sign In')]"]
               "//button[contains(text(), 'Sign In')]"
               3%nat no_password_field no_password_field eq_refl)
             eq_refl eq_refl no_password_field eq_refl)).
Defined.

(** On a page without the control, every poll times out and
    [click_sign_in_with_wizards] answers [False]. *)
Lemma exhausted_set_is_not_found_witness :
  let s := with_session 7%nat bare_page in
  fst (wait_for_element scripted XPATH "//a[contains(text(), 'Wizards')]" 5 s)
    = Ret None /\
  fst (click_sign_in_with_wizards_loop scripted possible_selectors s)
    = Ret None /\
  fst (click_sign_in_with_wizards scripted s) = Ret false.
Proof.
  cbn zeta.
  destruct (@exhausted_set_is_not_found _ scripted
              (with_session 7%nat bare_page) 7%nat eq_refl)
    as (H1 & H2 & H3).
  split; [|split].
  - eapply H1; reflexivity.
  - rewrite (H2 possible_selectors bare_page eq_refl). reflexivity.
  - rewrite (H3 bare_page eq_refl). reflexivity.
Defined.

(** The e-mail field takes the identifier, no password field shows up:
    the function fails with the identifier left in element 1. *)
Lemma enter_credentials_partial_entry_witness :
  let s := with_session 7%nat no_password_field in
  fst (enter_credentials scripted s) = Ret false /\
  log (snd (enter_credentials scripted s)) =
    [EWaitClickable 7%nat CSS_SELECTOR "input[name='username']" 5;
     EPrint "Timeout waiting for element: input[name='username']";
     EWaitClickable 7%nat CSS_SELECTOR "input[name='email']" 5;
     EClear 1%nat;
     ESendKeys 1%nat "user@example.com";
     EPrint "Entered username";
     EWaitClickable 7%nat CSS_SELECTOR "input[name='password']" 5;
     EPrint "Timeout waiting for element: input[name='password']";
     EWaitClickable 7%nat CSS_SELECTOR "input[type='password']" 5;
     EPrint "Timeout waiting for element: input[type='password']";
     EWaitClickable 7%nat CSS_SELECTOR "input[id*='password']" 5;
     EPrint "Timeout waiting for element: input[id*='password']";
     EPrint "Could not find password field"].
Proof.
  cbn zeta.
  rewrite (@enter_credentials_partial_entry _ scripted
             (with_session 7%nat no_password_field) 7%nat
             ["input[name='username']"]
             ["input[type='email']"; "input[id*='username']";
              "input[id*='email']"]
             "input[name='email']" 1%nat
             no_password_field no_password_field no_password_field
             no_password_field no_password_field
             eq_refl eq_refl eq_refl eq_refl eq_refl eq_refl eq_refl).
  split; reflexivity.
Defined.

(** On the library page the URL settles the outcome; the user element the
    page also shows is never looked up. *)
Lemma url_marker_short_circuits_witness :
  let s := with_session 7%nat landed_on_sources in
  has_success_marker (sc_url landed_on_sources) = true /\
  fst (check_login_success scripted s) = Ret true /\
  count is_find_element (log (snd (check_login_success scripted s))) = 0%nat.
Proof.
  cbn zeta.
  destruct (@url_marker_short_circuits _ scripted
              (with_session 7%nat landed_on_sources)
              7%nat landed_on_sources (sc_url landed_on_sources)
              landed_on_sources eq_refl eq_refl eq_refl eq_refl) as [H1 H2].
  split; [reflexivity|]. split.
  - rewrite H1. reflexivity.
  - rewrite H2. reflexivity.
Defined.

(** A sign-in URL without a return address is classified as a failure. *)
Lemma sign_in_url_without_marker_is_failure_witness :
  let s := with_session 7%nat rejected_login in
  contains "sign-in" (sc_url rejected_login) = true /\
  has_success_marker (sc_url rejected_login) = false /\
  fst (check_login_success scripted s) = Ret false.
Proof.
  cbn zeta. split; [reflexivity|]. split; [reflexivity|].
  rewrite (@sign_in_url_without_marker_is_failure _ scripted
             (with_session 7%nat rejected_login)
             7%nat rejected_login (sc_url rejected_login)
             rejected_login rejected_login
             eq_refl eq_refl eq_refl eq_refl eq_refl eq_refl).
  reflexivity.
Defined.

(** The home page, with no user element: [False], printed as unclear. *)
Lemma unclear_state_returns_false_witness :
  let s := with_session 7%nat landed_elsewhere in
  fst (check_login_success scripted s) = Ret false /\
  last (log (snd (check_login_success scripted s))) (EPrint "")
    = EPrint "Login status unclear".
Proof.
  cbn zeta.
  rewrite (@unclear_state_returns_false _ scripted
             (with_session 7%nat landed_elsewhere)
             7%nat landed_elsewhere (sc_url landed_elsewhere)
             landed_elsewhere landed_elsewhere
             eq_refl eq_refl eq_refl eq_refl eq_refl eq_refl).
  split; reflexivity.
Defined.

(** Edge starts as session 7, the override is rejected: bootstrap fails. *)
Lemma override_failure_fails_bootstrap_witness :
  let s := fresh override_rejected in
  fst (setup_driver scripted s) = Ret false /\
  driver (self (snd (setup_driver scripted s))) = Some 7%nat.
Proof.
  cbn zeta.
  rewrite (@override_failure_fails_bootstrap _ scripted
             (fresh override_rejected)
             "msedgedriver" override_rejected 7%nat override_rejected
             (mkExn WebDriverException "Message: javascript error")
             override_rejected
             eq_refl eq_refl eq_refl eq_refl).
  split; reflexivity.
Defined.

(** ** Where the code departs from the stated behaviour *)

(** C2.  The code at the failing input.  The browser is still on the login
    page, whose URL is [login_url] itself: it contains ["sign-in"] and the
    page shows no user element, so the outcome should be a failure, as the
    source's own comment on the sign-in test says.  [check_login_success]
    returns [True]: the marker ["sources"] is looked for in the whole URL
    and occurs in the return address of the query string, so the sign-in
    test is never reached. *)
Lemma sign_in_url_classified_as_success :
  let s := with_session 7%nat stuck_on_sign_in in
  sc_url stuck_on_sign_in = login_url (self s) /\
  contains "sign-in" (sc_url stuck_on_sign_in) = true /\
  none_present scripted 7%nat user_elements stuck_on_sign_in
    = Some stuck_on_sign_in /\
  fst (check_login_success scripted s) = Ret true.
Proof. cbn zeta. repeat split; reflexivity. Qed.

(** C3 as stated fails: a page with neither marker and a page still on
    sign-in get the same answer, [False]; no third value exists for the
    caller to see. *)
Lemma unclear_state_not_distinguished :
  let unclear := with_session 7%nat landed_elsewhere in
  let failed := with_session 7%nat rejected_login in
  has_success_marker (sc_url landed_elsewhere) = false /\
  contains "sign-in" (sc_url landed_elsewhere) = false /\
  none_present scripted 7%nat user_elements landed_elsewhere
    = Some landed_elsewhere /\
  has_success_marker (sc_url rejected_login) = false /\
  contains "sign-in" (sc_url rejected_login) = true /\
  fst (check_login_success scripted unclear) = Ret false /\
  fst (check_login_success scripted unclear) =
  fst (check_login_success scripted failed).
Proof. cbn zeta. repeat split; reflexivity. Qed.

(** C4 as stated fails: the driver starts (session 7 is stored), the
    property override raises, and bootstrap reports failure. *)
Lemma override_failure_is_fatal :
  let s := fresh override_rejected in
  sc_edge override_rejected = Ret 7%nat /\
  driver (self (snd (setup_driver scripted s))) = Some 7%nat /\
  fst (setup_driver scripted s) = Ret false.
Proof. cbn zeta. repeat split; reflexivity. Qed.

(** * Concrete runs of the further properties *)


(** The login succeeds, then [quit] fails: [main] ends with that failure. *)
Lemma main_quit_failure_propagates_witness :
  driver (self (snd (main (faulty (mkFaults None [] [] [] None
                                     (Some session_gone)))
                       "user@example.com" "secret" (fresh login_form))))
    <> None /\
  fst (main (faulty (mkFaults None [] [] [] None (Some session_gone)))
         "user@example.com" "secret" (fresh login_form))
    = Raise session_gone.
Proof.
  assert (H : driver (self (snd (main (faulty (mkFaults None [] [] [] None
                                                 (Some session_gone)))
                                   "user@example.com" "secret"
                                   (fresh login_form)))) <> None)
    by (vm_compute; discriminate).
  split; [exact H|].
  apply main_quit_failure_propagates; [intros; reflexivity | exact H].
Defined.

(** Closing twice quits session 7 twice; closing a fresh object does
    nothing. *)
Lemma close_is_not_idempotent_witness :
  close scripted (fresh login_form) = (Ret tt, fresh login_form) /\
  log (snd ((close scripted ;; close scripted)
              (with_session 7%nat login_form)))
    = [EQuit 7%nat; EQuit 7%nat].
Proof.
  destruct (close_is_not_idempotent scripted (fresh login_form)) as [H1 _].
  destruct (close_is_not_idempotent scripted (with_session 7%nat login_form))
    as [_ H2].
  split; [apply H1; reflexivity|].
  rewrite (H2 7%nat login_form (Ret tt) login_form eq_refl eq_refl eq_refl).
  reflexivity.
Defined.

(** Every bootstrap call returns: [setup_driver] answers [True]. *)
Lemma setup_driver_true_iff_witness :
  fst (setup_driver scripted (fresh login_form)) = Ret true.
Proof.
  apply (proj2 (setup_driver_true_iff scripted (fresh login_form))).
  exists "msedgedriver", login_form, 7%nat, login_form, login_form,
    login_form, login_form.
  repeat split; reflexivity.
Defined.

(** The driver download fails, or the browser binary is missing: [False],
    and the object still has no session. *)
Lemma setup_driver_start_failure_witness :
  (fst (setup_driver
          (faulty (mkFaults (Some (mkExn OSError "Could not reach host"))
                     [] [] [] None None)) (fresh login_form)) = Ret false /\
   driver (self (snd (setup_driver
          (faulty (mkFaults (Some (mkExn OSError "Could not reach host"))
                     [] [] [] None None)) (fresh login_form)))) = None) /\
  (fst (setup_driver scripted (fresh edge_missing)) = Ret false /\
   driver (self (snd (setup_driver scripted (fresh edge_missing)))) = None).
Proof.
  split.
  - destruct (proj1 (setup_driver_start_failure
                (faulty (mkFaults (Some (mkExn OSError "Could not reach host"))
                           [] [] [] None None)) (fresh login_form))
                (mkExn OSError "Could not reach host") login_form
                eq_refl eq_refl) as [H1 H2].
    split; [exact H1 | rewrite H2; reflexivity].
  - destruct (proj2 (setup_driver_start_failure scripted (fresh edge_missing))
                "msedgedriver" edge_missing
                (mkExn WebDriverException
                   "Message: unknown error: cannot find msedge binary")
                edge_missing eq_refl eq_refl eq_refl) as [H1 H2].
    split; [exact H1 | rewrite H2; reflexivity].
Defined.

(** An object holding session 5 is bootstrapped again: session 7 takes its
    place, nothing was quit, and [close] now quits 7. *)
Lemma setup_driver_replaces_session_witness :
  driver (self (with_session 5%nat login_form)) = Some 5%nat /\
  driver (self (snd (setup_driver scripted (with_session 5%nat login_form))))
    = Some 7%nat /\
  count is_quit
    (log (snd (setup_driver scripted (with_session 5%nat login_form))))
    = 0%nat.
Proof.
  destruct (@setup_driver_replaces_session _ scripted
              (with_session 5%nat login_form)
              "msedgedriver" login_form 7%nat login_form login_form
              login_form login_form eq_refl eq_refl eq_refl eq_refl eq_refl)
    as (H1 & H2 & _).
  split; [reflexivity|]. split; [exact H1 | exact H2].
Defined.

(** The first submit candidate goes stale while polled, or resolves to
    element 3 whose click is intercepted: in both runs the loop moves on
    and clicks element 4, found by a text selector. *)
Lemma submit_login_skips_failed_candidate_witness :
  fst (submit_login_loop
         (faulty (mkFaults None [("button[type='submit']", stale_reference)]
                    [] [] None None))
         submit_selectors (with_session 7%nat login_form))
    = Ret (Some true) /\
  log (snd (submit_login_loop
              (faulty (mkFaults None [] [(3%nat, click_intercepted)] []
                         None None))
              submit_selectors (with_session 7%nat login_form)))
    = [EWaitClickable 7%nat CSS_SELECTOR "button[type='submit']" 5;
       EPrint "Found submit button, clicking...";
       EClick 3%nat;
       EWaitClickable 7%nat CSS_SELECTOR "input[type='submit']" 5;
       EPrint "Timeout waiting for element: input[type='submit']";
       EWaitClickable 7%nat XPATH "//button[contains(text(), 'Sign In')]" 5;
       EPrint "Found submit button, clicking...";
       EClick 4%nat].
Proof.
  split.
  - change submit_selectors
      with ("button[type='submit']" :: tl submit_selectors).
    rewrite (proj1 (@submit_login_skips_failed_candidate _
               (faulty (mkFaults None
                          [("button[type='submit']", stale_reference)]
                          [] [] None None))
               (with_session 7%nat login_form) 7%nat
               "button[type='submit']" (tl submit_selectors) eq_refl)
             stale_reference login_form eq_refl eq_refl eq_refl).
    reflexivity.
  - change submit_selectors
      with ("button[type='submit']" :: tl submit_selectors).
    rewrite (proj2 (@submit_login_skips_failed_candidate _
               (faulty (mkFaults None [] [(3%nat, click_intercepted)] []
                          None None))
               (with_session 7%nat login_form) 7%nat
               "button[type='submit']" (tl submit_selectors) eq_refl)
             3%nat login_form click_intercepted login_form
             eq_refl eq_refl eq_refl).
    reflexivity.
Defined.

(** The e-mail field goes stale while polled: [enter_credentials] gives up
    there, although three more username candidates were left. *)
Lemma enter_credentials_error_stops_search_witness :
  enter_credentials
    (faulty (mkFaults None [("input[name='email']", stale_reference)]
               [] [] None None))
    (with_session 7%nat login_form) =
  (Ret false,
   {| self := self (with_session 7%nat login_form);
      world := login_form;
      log :=
        [EWaitClickable 7%nat CSS_SELECTOR "input[name='username']" 5;
         EPrint "Timeout waiting for element: input[name='username']";
         EWaitClickable 7%nat CSS_SELECTOR "input[name='email']" 5;
         EPrint "Error entering credentials: Message: stale element reference"]
   |}).
Proof.
  rewrite (@enter_credentials_error_stops_search _
             (faulty (mkFaults None [("input[name='email']", stale_reference)]
                        [] [] None None))
             (with_session 7%nat login_form) 7%nat
             ["input[name='username']"]
             ["input[type='email']"; "input[id*='username']";
              "input[id*='email']"]
             "input[name='email']" stale_reference login_form login_form
             eq_refl eq_refl eq_refl eq_refl eq_refl eq_refl).
  reflexivity.
Defined.

(** A user menu on a page whose URL is still the sign-in one: [True]. *)
Lemma user_element_means_success_witness :
  contains "sign-in" (sc_url user_menu_on_sign_in) = true /\
  has_success_marker (sc_url user_menu_on_sign_in) = false /\
  fst (check_login_success scripted (with_session 7%nat user_menu_on_sign_in))
    = Ret true.
Proof.
  split; [reflexivity|]. split; [reflexivity|].
  rewrite (@user_element_means_success _ scripted
             (with_session 7%nat user_menu_on_sign_in) 7%nat
             user_menu_on_sign_in (sc_url user_menu_on_sign_in)
             user_menu_on_sign_in
             ["//a[contains(@class, 'user')]";
              "//button[contains(@class, 'user')]"]
             ["//span[contains(@class, 'username')]"]
             "//div[contains(@class, 'user-menu')]"
             user_menu_on_sign_in 9%nat user_menu_on_sign_in
             eq_refl eq_refl eq_refl eq_refl eq_refl eq_refl eq_refl).
  reflexivity.
Defined.

(** The session is gone when the URL is read, or when the second user
    selector is looked up: [False] both times. *)
Lemma check_login_success_error_is_false_witness :
  fst (check_login_success
         (faulty (mkFaults None [] [] [] (Some session_gone) None))
         (with_session 7%nat landed_on_sources)) = Ret false /\
  fst (check_login_success
         (faulty (mkFaults None [] []
                    [("//button[contains(@class, 'user')]", session_gone)]
                    None None))
         (with_session 7%nat landed_elsewhere)) = Ret false.
Proof.
  split.
  - rewrite (proj1 (@check_login_success_error_is_false _
               (faulty (mkFaults None [] [] [] (Some session_gone) None))
               (with_session 7%nat landed_on_sources) 7%nat landed_on_sources
               eq_refl eq_refl)
             session_gone landed_on_sources eq_refl eq_refl).
    reflexivity.
  - rewrite (proj2 (@check_login_success_error_is_false _
               (faulty (mkFaults None [] []
                          [("//button[contains(@class, 'user')]",
                            session_gone)] None None))
               (with_session 7%nat landed_elsewhere) 7%nat landed_elsewhere
               eq_refl eq_refl)
             (sc_url landed_elsewhere) landed_elsewhere
             ["//a[contains(@class, 'user')]"]
             "//button[contains(@class, 'user')]"
             ["//div[contains(@class, 'user-menu')]";
              "//span[contains(@class, 'username')]"]
             landed_elsewhere session_gone landed_elsewhere
             eq_refl eq_refl eq_refl eq_refl eq_refl eq_refl eq_refl).
    reflexivity.
Defined.

(** A complete form and a redirect to the library: [True], session 7 in
    hand. *)
Lemma authenticate_true_inv_witness :
  fst (authenticate scripted (fresh login_form)) = Ret true /\
  exists d,
    fst (get_driver (snd (authenticate scripted (fresh login_form))))
      = Ret (Some d).
Proof.
  assert (H : authenticate scripted (fresh login_form) =
              (Ret true, snd (authenticate scripted (fresh login_form))))
    by (vm_compute; reflexivity).
  split; [rewrite H; reflexivity|].
  exact (proj1 (authenticate_true_inv scripted (fresh login_form) H)).
Defined.


(** On a fresh object the form steps answer [False] and log one line each. *)
Lemma form_steps_without_session_witness :
  driver (self (fresh login_form)) = None /\
  fst (click_sign_in_with_wizards scripted (fresh login_form)) = Ret false /\
  fst (submit_login scripted (fresh login_form)) = Ret false /\
  fst (enter_credentials scripted (fresh login_form)) = Ret false.
Proof.
  destruct (form_steps_without_session scripted (fresh login_form) eq_refl)
    as (H1 & H2 & H3 & _).
  split; [reflexivity|]. split; [rewrite H1; reflexivity|].
  split; [rewrite H2; reflexivity | exact H3].
Defined.
